(** * beeline-go, package [internal]: trace identity, child spans and rollup

    A shallow embedding of [internal/internal.go]:
    [AddRequestProps], [parseTraceHeader], [BuildDBEvent], [rollup] and
    [addTraceID], together with the pieces of Go's standard library, of
    libhoney-go and of satori/go.uuid that these functions call.

    Events live in a store indexed by event pointer, because the package
    mutates a parent event through the pointer that the request context
    carries.  A Go function is embedded as a tree of atomic library calls
    ([Prog]); the tree is run to completion for the sequential properties, and
    several trees are interleaved by a schedule for the concurrent one. *)

From Stdlib Require Import ZArith Ascii String List.
From Stdlib.Strings Require Import Byte.
From Stdlib Require Import PrimFloat.
From stdpp Require Import base strings gmap list pretty.

Set Warnings "-register-all".

(* ================================================================== *)
(** ** Go's [strings] package *)

(** [strings.Split(s, sep)] for a separator of one byte, which is all the
    package uses ([";"], ["="] and ["."]).  The result is never empty: a
    string without the separator is returned whole, and [""] splits to
    [[""]]. *)
Fixpoint strings_Split (s : string) (sep : ascii) : list string :=
  match s with
  | EmptyString => [EmptyString]
  | String c rest =>
      if Ascii.eqb c sep then EmptyString :: strings_Split rest sep
      else match strings_Split rest sep with
           | piece :: pieces => String c piece :: pieces
           | [] => [String c EmptyString]
           end
  end.

(** [strings.Join(elems, sep)], by which [fmt] lays out the elements of a
    slice. *)
Fixpoint strings_Join (elems : list string) (sep : string) : string :=
  match elems with
  | [] => ""
  | [e] => e
  | e :: rest => e +:+ sep +:+ strings_Join rest sep
  end.

(** Indexing a slice of strings, [xs[i]], where the index is known to be in
    range from a preceding length test. *)
Definition at_index (xs : list string) (i : nat) : string := nth i xs "".

(* ================================================================== *)
(** ** satori/go.uuid *)

(** [type UUID [16]byte]. *)
Inductive UUID : Type :=
  MkUUID (b0 b1 b2 b3 b4 b5 b6 b7 b8 b9 b10 b11 b12 b13 b14 b15 : byte).

(** [encoding/hex]: [hextable = "0123456789abcdef"], and [hex.Encode]
    writes [hextable[v>>4]] then [hextable[v&0x0f]] for every byte [v]. *)
Definition hextable : string := "0123456789abcdef".

Definition hex_hi (b : byte) : ascii :=
  default "0"%char (String.get (N.to_nat (N.shiftr (Byte.to_N b) 4)) hextable).

Definition hex_lo (b : byte) : ascii :=
  default "0"%char (String.get (N.to_nat (N.land (Byte.to_N b) 15)) hextable).

Fixpoint hex_Encode (src : list byte) : string :=
  match src with
  | [] => ""
  | b :: rest => String (hex_hi b) (String (hex_lo b) (hex_Encode rest))
  end.

(** [func (u UUID) String() string]: the canonical 8-4-4-4-12 rendering. *)
Definition UUID_String (u : UUID) : string :=
  match u with
  | MkUUID b0 b1 b2 b3 b4 b5 b6 b7 b8 b9 b10 b11 b12 b13 b14 b15 =>
      hex_Encode [b0; b1; b2; b3] +:+ "-" +:+
      hex_Encode [b4; b5] +:+ "-" +:+
      hex_Encode [b6; b7] +:+ "-" +:+
      hex_Encode [b8; b9] +:+ "-" +:+
      hex_Encode [b10; b11; b12; b13; b14; b15]
  end.

(** The value of a hexadecimal digit, and the byte two digits denote; the
    inverse of [hex_hi] and [hex_lo]. *)
Definition hex_value (c : ascii) : N :=
  let n := N_of_ascii c in
  if (48 <=? n)%N && (n <=? 57)%N then (n - 48)%N
  else if (97 <=? n)%N && (n <=? 102)%N then (n - 87)%N
  else 0%N.

Definition byte_of_hex (hi lo : ascii) : option byte :=
  Byte.of_N (16 * hex_value hi + hex_value lo).

(** [uuid.Nil], which [uuid.NewV4] returns beside its error when the random
    source fails; [internal.go] discards that error. *)
Definition uuid_Nil : UUID :=
  MkUUID x00 x00 x00 x00 x00 x00 x00 x00 x00 x00 x00 x00 x00 x00 x00 x00.

(* ================================================================== *)
(** ** Field values *)

(** The dynamic values ([interface{}]) that the package stores in events:
    [nil], [string], [int], [int64] ([req.ContentLength]), [float64]
    (durations), [error] (by its message) and [[]interface{}] (query
    arguments). *)
Inductive Value : Type :=
| VNil
| VString (s : string)
| VInt (n : Z)
| VInt64 (n : Z)
| VFloat64 (f : float)
| VError (msg : string)
| VSlice (elems : list Value).

(** A type assertion [v.(int)] in its two-result form: [ok] is false for
    every other dynamic type, [int64] and [float64] included. *)
Definition type_assert_int (v : Value) : option Z :=
  match v with VInt n => Some n | _ => None end.

(** [v.(float64)], two-result form. *)
Definition type_assert_float64 (v : Value) : option float :=
  match v with VFloat64 f => Some f | _ => None end.

(** Go's [int] on a 64-bit platform: addition wraps around modulo [2^64]
    into the signed range. *)
Definition int_wrap (n : Z) : Z :=
  ((n + 2 ^ 63) mod 2 ^ 64 - 2 ^ 63)%Z.

Definition int_add (a b : Z) : Z := int_wrap (a + b).

Abbreviation FieldMap := (gmap string Value).

(** Reading a Go map, [v, _ := m[key]]: the zero value of [interface{}],
    [nil], when the key is absent. *)
Definition map_index (m : FieldMap) (key : string) : Value :=
  default VNil (m !! key).

(* ================================================================== *)
(** ** libhoney-go: events, builders and the event store *)

(** A [*libhoney.Event], as the address of the event in the store. *)
Definition EventPtr : Type := nat.

(** The map that [ev.Fields()] returns: libhoney hands out the event's own
    map, not a copy, so a map is named by the event it belongs to. *)
Inductive MapRef : Type := FieldsOf (ev : EventPtr).

(** A [*libhoney.Builder], by the fields a new event starts with (its static
    fields and the values of its dynamic fields). *)
Record Builder : Type := mkBuilder { builderFields : FieldMap }.

(** The state the package acts on: the fields of every allocated event, the
    number of UUIDs drawn so far, and the events handed to [Send], each with
    the fields it had at that moment. *)
Record World : Type := mkWorld {
  events : gmap EventPtr FieldMap;
  uuidsDrawn : nat;
  sendLog : list (EventPtr * FieldMap)
}.

Definition set_events (w : World) (es : gmap EventPtr FieldMap) : World :=
  mkWorld es (uuidsDrawn w) (sendLog w).

(** A Go function body as a tree of the library calls it makes, in program
    order.  Every constructor but [Ret] is one atomic call followed by the
    rest of the body. *)
Inductive Prog (A : Type) : Type :=
| Ret (a : A)
| CallNewEvent (bld : Builder) (k : EventPtr -> Prog A)
| CallAddField (ev : EventPtr) (key : string) (val : Value) (k : Prog A)
| CallFields (ev : EventPtr) (k : MapRef -> Prog A)
| ReadMap (m : MapRef) (key : string) (k : option Value -> Prog A)
| CallSend (ev : EventPtr) (k : Prog A)
| CallNewV4 (k : UUID -> Prog A).

Arguments Ret {A} a.
Arguments CallNewEvent {A} bld k.
Arguments CallAddField {A} ev key val k.
Arguments CallFields {A} ev k.
Arguments ReadMap {A} m key k.
Arguments CallSend {A} ev k.
Arguments CallNewV4 {A} k.

Fixpoint bind {A B : Type} (p : Prog A) (f : A -> Prog B) : Prog B :=
  match p with
  | Ret a => f a
  | CallNewEvent bld k => CallNewEvent bld (fun ev => bind (k ev) f)
  | CallAddField ev key val k => CallAddField ev key val (bind k f)
  | CallFields ev k => CallFields ev (fun m => bind (k m) f)
  | ReadMap m key k => ReadMap m key (fun r => bind (k r) f)
  | CallSend ev k => CallSend ev (bind k f)
  | CallNewV4 k => CallNewV4 (fun u => bind (k u) f)
  end.

#[global] Instance Prog_ret : MRet Prog := @Ret.
#[global] Instance Prog_bind : MBind Prog := fun A B f p => bind p f.

(** The library calls as one-call programs. *)
Definition NewEvent (bld : Builder) : Prog EventPtr := CallNewEvent bld Ret.
Definition AddField (ev : EventPtr) (key : string) (val : Value) : Prog unit :=
  CallAddField ev key val (Ret tt).
Definition Fields (ev : EventPtr) : Prog MapRef := CallFields ev Ret.
Definition index_ok (m : MapRef) (key : string) : Prog (option Value) :=
  ReadMap m key Ret.
Definition index (m : MapRef) (key : string) : Prog Value :=
  ReadMap m key (fun r => Ret (default VNil r)).
Definition Send (ev : EventPtr) : Prog unit := CallSend ev (Ret tt).
Definition uuid_NewV4 : Prog UUID := CallNewV4 Ret.

(** What a run ends in: a result and the final state, or a run-time panic
    (here: a method called through a pointer that addresses no event, as for
    a nil [*libhoney.Event]). *)
Inductive Outcome (A : Type) : Type :=
| Returns (a : A) (w : World)
| Panics.

Arguments Returns {A} a w.
Arguments Panics {A}.

Section Internal.

(** Go's rendering of a [float64] under [%v]
    ([strconv.FormatFloat(f, 'g', -1, 64)]); its digits are not modelled. *)
Variable strconv_FormatFloat : float -> string.

(** The identifiers that successive calls of [uuid.NewV4] yield in this
    run, in order. *)
Variable uuid_source : nat -> UUID.

(** [fmt.Sprintf] with the verb [%s] applied to one operand.  A string
    prints as itself and an [error] as its message; other types print
    as a bad-verb notice [%!s(T=v)], and a slice prints its elements
    between brackets. *)
Fixpoint fmt_verb_s (v : Value) : string :=
  match v with
  | VNil => "%!s(<nil>)"
  | VString s => s
  | VInt n => "%!s(int=" +:+ pretty n +:+ ")"
  | VInt64 n => "%!s(int64=" +:+ pretty n +:+ ")"
  | VFloat64 f => "%!s(float64=" +:+ strconv_FormatFloat f +:+ ")"
  | VError msg => msg
  | VSlice elems => "[" +:+ strings_Join (List.map fmt_verb_s elems) " " +:+ "]"
  end.

(** One atomic library call against the store.
    - [NewEvent] allocates an event at an unused address with the builder's
      fields.
    - [AddField] sets one key of the event's map (under the event's lock).
    - [Fields] returns the event's map.
    - a map read returns the value under the key and whether it is present.
    - [Send] hands the event to the transport.
    - [uuid.NewV4] draws the next identifier. *)
Definition step {A : Type} (p : Prog A) (w : World) : Outcome (Prog A) :=
  match p with
  | Ret a => Returns (Ret a) w
  | CallNewEvent bld k =>
      let ev := fresh (dom (events w)) in
      Returns (k ev) (set_events w (<[ev := builderFields bld]> (events w)))
  | CallAddField ev key val k =>
      match events w !! ev with
      | Some fs => Returns k (set_events w (<[ev := <[key := val]> fs]> (events w)))
      | None => Panics
      end
  | CallFields ev k =>
      match events w !! ev with
      | Some _ => Returns (k (FieldsOf ev)) w
      | None => Panics
      end
  | ReadMap (FieldsOf ev) key k =>
      match events w !! ev with
      | Some fs => Returns (k (fs !! key)) w
      | None => Panics
      end
  | CallSend ev k =>
      match events w !! ev with
      | Some fs => Returns k (mkWorld (events w) (uuidsDrawn w) (sendLog w ++ [(ev, fs)]))
      | None => Panics
      end
  | CallNewV4 k =>
      Returns (k (uuid_source (uuidsDrawn w)))
              (mkWorld (events w) (S (uuidsDrawn w)) (sendLog w))
  end.

(** Running a body to completion, one call after the other. *)
Fixpoint run {A : Type} (p : Prog A) (w : World) : Outcome A :=
  match p with
  | Ret a => Returns a w
  | CallNewEvent bld k =>
      let ev := fresh (dom (events w)) in
      run (k ev) (set_events w (<[ev := builderFields bld]> (events w)))
  | CallAddField ev key val k =>
      match events w !! ev with
      | Some fs => run k (set_events w (<[ev := <[key := val]> fs]> (events w)))
      | None => Panics
      end
  | CallFields ev k =>
      match events w !! ev with
      | Some _ => run (k (FieldsOf ev)) w
      | None => Panics
      end
  | ReadMap (FieldsOf ev) key k =>
      match events w !! ev with
      | Some fs => run (k (fs !! key)) w
      | None => Panics
      end
  | CallSend ev k =>
      match events w !! ev with
      | Some fs => run k (mkWorld (events w) (uuidsDrawn w) (sendLog w ++ [(ev, fs)]))
      | None => Panics
      end
  | CallNewV4 k =>
      run (k (uuid_source (uuidsDrawn w)))
          (mkWorld (events w) (S (uuidsDrawn w)) (sendLog w))
  end.

(* ================================================================== *)
(** ** [net/http]: the request *)

(** [url.URL], by the two fields the package reads. *)
Record url_URL : Type := mkURL { Path : string; Host : string }.

(** [http.Request], by the fields the package reads.  [Header] is Go's
    [map[string][]string]. *)
Record http_Request : Type := mkRequest {
  Method : string;
  URL : url_URL;
  Proto : string;
  ContentLength : Z;
  RemoteAddr : string;
  Header : gmap string (list string)
}.

(** [Header.Get(key)]: the first value stored under the canonical form of
    [key], or [""].  The three keys the package asks for (["User-Agent"],
    ["X-Amzn-Trace-Id"], ["Request-Id"]) are in canonical form already. *)
Definition Header_Get (h : gmap string (list string)) (key : string) : string :=
  match h !! key with
  | Some (v :: _) => v
  | _ => ""
  end.

(** [req.UserAgent()]. *)
Definition UserAgent (req : http_Request) : string :=
  Header_Get (Header req) "User-Agent".

(* ================================================================== *)
(** ** Collaborators of package [internal] inside the repository *)

(** Modelled from the spec: package [beeline] ([beeline.ContextEvent]) is not
    among the sources.  The spec's execution context is "a key-scoped carrier
    associating the current span Event with the logical call chain" that is
    never mutated in place; a context is therefore the event it carries, if
    any, and [ContextEvent] returns it ([None] is Go's [nil]). *)
Record Context : Type := mkContext { currentEvent : option EventPtr }.

Definition ContextEvent (ctx : Context) : option EventPtr := currentEvent ctx.

(* ================================================================== *)
(** ** Package [internal] *)

(** The loop [for _, id := range ids] of [parseTraceHeader], from the
    segments still to visit and the current value of the local [traceID]. *)
Fixpoint parseTraceHeader_range (ev : EventPtr) (ids : list string)
    (traceID : string) : Prog string :=
  match ids with
  | [] => mret traceID
  | id :: rest =>
      let keyval := strings_Split id "="%char in
      if negb (Nat.eqb (length keyval) 2) then
        (* malformed keyval: continue *)
        parseTraceHeader_range ev rest traceID
      else
        AddField ev ("request.header.aws_trace_id." +:+ at_index keyval 0)
                 (VString (at_index keyval 1));;
        parseTraceHeader_range ev rest
          (if String.eqb (at_index keyval 0) "Root" then at_index keyval 0
           else traceID)
  end.

Definition parseTraceHeader (req : http_Request) (ev : EventPtr) : Prog string :=
  let awsHeader := Header_Get (Header req) "X-Amzn-Trace-Id" in
  traceID ← (if negb (String.eqb awsHeader "") then
               parseTraceHeader_range ev (strings_Split awsHeader ";"%char) ""
             else mret "");
  let requestID := Header_Get (Header req) "Request-Id" in
  traceID ← (if negb (String.eqb requestID "") then
               AddField ev "request.header.request_id" (VString requestID);;
               mret requestID
             else mret traceID);
  if String.eqb traceID "" then
    id ← uuid_NewV4;
    mret (UUID_String id)
  else mret traceID.

Definition AddRequestProps (req : http_Request) (ev : EventPtr) : Prog unit :=
  AddField ev "meta.type" (VString "http request");;
  AddField ev "request.method" (VString (Method req));;
  AddField ev "request.path" (VString (Path (URL req)));;
  AddField ev "request.host" (VString (Host (URL req)));;
  AddField ev "request.proto" (VString (Proto req));;
  AddField ev "request.content_length" (VInt64 (ContentLength req));;
  AddField ev "request.remote_addr" (VString (RemoteAddr req));;
  AddField ev "request.header.user_agent" (VString (UserAgent req));;
  traceID ← parseTraceHeader req ev;
  AddField ev "trace.trace_id" (VString traceID);;
  id ← uuid_NewV4;
  AddField ev "trace.span_id" (VString (UUID_String id)).

(** The four rollup keys, [fmt.Sprintf("totals.%s_count", metaType)] and so
    on. *)
Definition totalMetaCountKey (metaType : Value) : string :=
  "totals." +:+ fmt_verb_s metaType +:+ "_count".
Definition totalMetaDurKey (metaType : Value) : string :=
  "totals." +:+ fmt_verb_s metaType +:+ "_duration_ms".
Definition totalCallCountKey (metaType dbCall : Value) : string :=
  "totals." +:+ fmt_verb_s metaType +:+ "_" +:+ fmt_verb_s dbCall +:+ "_count".
Definition totalCallDurKey (metaType dbCall : Value) : string :=
  "totals." +:+ fmt_verb_s metaType +:+ "_" +:+ fmt_verb_s dbCall +:+ "_duration_ms".

Definition rollup (ctx : Context) (ev : EventPtr) (dur : float) : Prog unit :=
  match ContextEvent ctx with
  | None => mret tt
  | Some parentEv =>
      evFields ← Fields ev;
      pvFields ← Fields parentEv;
      metaType ← index evFields "meta.type";
      dbCall ← index evFields "db.call";
      (* cast everything appropriately and set to zero if it didn't already exist *)
      totalTypeCount ← index pvFields (totalMetaCountKey metaType);
      let totalTypeCountVal := default 0%Z (type_assert_int totalTypeCount) in
      totalTypeDur ← index pvFields (totalMetaDurKey metaType);
      let totalTypeDurVal := default 0%float (type_assert_float64 totalTypeDur) in
      totalCallCount ← index pvFields (totalCallCountKey metaType dbCall);
      let totalCallCountVal := default 0%Z (type_assert_int totalCallCount) in
      totalCallDur ← index pvFields (totalCallDurKey metaType dbCall);
      let totalCallDurVal := default 0%float (type_assert_float64 totalCallDur) in
      (* set new values with the current stuff added *)
      AddField parentEv (totalMetaCountKey metaType) (VInt (int_add totalTypeCountVal 1));;
      AddField parentEv (totalMetaDurKey metaType) (VFloat64 (PrimFloat.add totalTypeDurVal dur));;
      AddField parentEv (totalCallCountKey metaType dbCall) (VInt (int_add totalCallCountVal 1));;
      AddField parentEv (totalCallDurKey metaType dbCall) (VFloat64 (PrimFloat.add totalCallDurVal dur))
  end.

Definition addTraceID (ctx : Context) (ev : EventPtr) : Prog unit :=
  match ContextEvent ctx with
  | Some parentEv =>
      m ← Fields parentEv;
      r ← index_ok m "trace.trace_id";
      match r with
      | Some id => AddField ev "trace.trace_id" id
      | None => mret tt
      end;;
      m ← Fields parentEv;
      r ← index_ok m "trace.span_id";
      match r with
      | Some id => AddField ev "trace.parent_id" id
      | None => mret tt
      end;;
      id ← uuid_NewV4;
      AddField ev "trace.span_id" (VString (UUID_String id))
  | None => mret tt
  end.

(** Modelled from the spec: package [timer] ([timer.Start], [Finish]) is
    not among the sources.  The spec's timer is "a stopwatch abstraction
    producing elapsed-duration measurements" whose stop yields "elapsed
    duration in milliseconds".  The measurement comes from the environment
    at the moment the closure runs, and [timer_Finish] hands it on. *)
Definition timer_Finish (measured : float) : float := measured.

(** The closure [fn] that [BuildDBEvent] returns.  [measured] is what the
    timer started in [BuildDBEvent] shows when the closure runs; [err] is
    [None] for a nil error and the error's message otherwise. *)
Definition BuildDBEvent_fn (ctx : Context) (ev : EventPtr)
    (measured : float) (err : option string) : Prog unit :=
  let duration := timer_Finish measured in
  rollup ctx ev duration;;
  AddField ev "duration_ms" (VFloat64 duration);;
  match err with
  | Some e => AddField ev "error" (VError e)
  | None => mret tt
  end;;
  Send ev.

(** [BuildDBEvent].  [callName] is the name [runtime.FuncForPC] reports for
    the caller, and [args] is [None] for a nil variadic slice. *)
Definition BuildDBEvent (ctx : Context) (bld : Builder) (callName : string)
    (query : string) (args : option (list Value))
    : Prog (EventPtr * (float -> option string -> Prog unit)) :=
  ev ← NewEvent bld;
  let fn := BuildDBEvent_fn ctx ev in
  addTraceID ctx ev;;
  let callNameChunks := strings_Split callName "."%char in
  AddField ev "db.call"
           (VString (at_index callNameChunks (length callNameChunks - 1)));;
  (if negb (String.eqb query "") then AddField ev "db.query" (VString query)
   else mret tt);;
  match args with
  | Some a => AddField ev "db.query_args" (VSlice a)
  | None => mret tt
  end;;
  mret (ev, fn).

(* ================================================================== *)
(** ** Callers and goroutines *)

(** One child span from start to finish, as the [sql] wrappers use
    [BuildDBEvent]: build the event, do the work, call the closure with the
    measured duration and the work's error. *)
Definition child_span (ctx : Context) (bld : Builder) (callName query : string)
    (args : option (list Value)) (elapsed : float) (err : option string)
    : Prog EventPtr :=
  '(ev, fn) ← BuildDBEvent ctx bld callName query args;
  fn elapsed err;;
  mret ev.

(** Goroutines sharing the store.  Each entry of [threads] is what is left
    of one goroutine's body; the schedule names, step by step, the goroutine
    that makes its next library call.  A finished goroutine, or an index
    that names none, leaves everything as it is. *)
Fixpoint interleave (schedule : list nat) (threads : list (Prog unit))
    (w : World) : Outcome (list (Prog unit)) :=
  match schedule with
  | [] => Returns threads w
  | i :: later =>
      match threads !! i with
      | None => interleave later threads w
      | Some p =>
          match step p w with
          | Returns p' w' => interleave later (<[i := p']> threads) w'
          | Panics => Panics
          end
      end
  end.

Definition finished (p : Prog unit) : bool :=
  match p with Ret _ => true | _ => false end.

(* ================================================================== *)
(** ** Effects of the package's functions on the fields of an event

    Pure functions that the theorems below relate to the runs of the
    embedded code. *)

(** Replacing the fields of one event in the store. *)
Definition upd (w : World) (ev : EventPtr) (fs : FieldMap) : World :=
  set_events w (<[ev := fs]> (events w)).

(** A segment of the AWS header that passes the test [len(keyval) == 2]. *)
Definition well_formed_segment (id : string) : bool :=
  Nat.eqb (length (strings_Split id "="%char)) 2.

(** The fields the loop over the segments leaves in the event. *)
Fixpoint range_fields (ids : list string) (fs : FieldMap) : FieldMap :=
  match ids with
  | [] => fs
  | id :: rest =>
      let keyval := strings_Split id "="%char in
      if well_formed_segment id then
        range_fields rest
          (<["request.header.aws_trace_id." +:+ at_index keyval 0
             := VString (at_index keyval 1)]> fs)
      else range_fields rest fs
  end.

(** The value of [traceID] when the loop over the segments ends. *)
Fixpoint range_traceID (ids : list string) (traceID : string) : string :=
  match ids with
  | [] => traceID
  | id :: rest =>
      let keyval := strings_Split id "="%char in
      if well_formed_segment id then
        range_traceID rest
          (if String.eqb (at_index keyval 0) "Root" then at_index keyval 0
           else traceID)
      else range_traceID rest traceID
  end.

(** [traceID] in [parseTraceHeader] just before the test [traceID == ""]. *)
Definition traceID_candidate (req : http_Request) : string :=
  let awsHeader := Header_Get (Header req) "X-Amzn-Trace-Id" in
  let requestID := Header_Get (Header req) "Request-Id" in
  if negb (String.eqb requestID "") then requestID
  else if negb (String.eqb awsHeader "") then
    range_traceID (strings_Split awsHeader ";"%char) ""
  else "".

(** The fields [parseTraceHeader] leaves in the event. *)
Definition parseTraceHeader_fields (req : http_Request) (fs : FieldMap) : FieldMap :=
  let awsHeader := Header_Get (Header req) "X-Amzn-Trace-Id" in
  let requestID := Header_Get (Header req) "Request-Id" in
  let fs1 := if negb (String.eqb awsHeader "") then
               range_fields (strings_Split awsHeader ";"%char) fs
             else fs in
  if negb (String.eqb requestID "") then
    <["request.header.request_id" := VString requestID]> fs1
  else fs1.

(** The request details [AddRequestProps] sets before it parses the trace
    headers. *)
Definition request_fields (req : http_Request) (fs : FieldMap) : FieldMap :=
  <["request.header.user_agent" := VString (UserAgent req)]>
  (<["request.remote_addr" := VString (RemoteAddr req)]>
  (<["request.content_length" := VInt64 (ContentLength req)]>
  (<["request.proto" := VString (Proto req)]>
  (<["request.host" := VString (Host (URL req))]>
  (<["request.path" := VString (Path (URL req))]>
  (<["request.method" := VString (Method req)]>
  (<["meta.type" := VString "http request"]> fs))))))).

(** The trace ID and the span ID of the root span that [AddRequestProps]
    fills when [n] identifiers have been drawn before. *)
Definition root_traceID (req : http_Request) (n : nat) : string :=
  if String.eqb (traceID_candidate req) "" then UUID_String (uuid_source n)
  else traceID_candidate req.

Definition root_spanID (req : http_Request) (n : nat) : string :=
  if String.eqb (traceID_candidate req) "" then UUID_String (uuid_source (S n))
  else UUID_String (uuid_source n).

Definition root_draws (req : http_Request) : nat :=
  if String.eqb (traceID_candidate req) "" then 2 else 1.

(** The fields [AddRequestProps] leaves in the event. *)
Definition AddRequestProps_fields (req : http_Request) (n : nat)
    (fs : FieldMap) : FieldMap :=
  <["trace.span_id" := VString (root_spanID req n)]>
  (<["trace.trace_id" := VString (root_traceID req n)]>
  (parseTraceHeader_fields req (request_fields req fs))).

(** A counter of the parent as [rollup] reads it: the value under the key
    when it is an [int] (a [float64] for a duration), and zero when the key
    is absent or holds a value of any other type. *)
Definition prior_count (pf : FieldMap) (key : string) : Z :=
  default 0%Z (type_assert_int (map_index pf key)).

Definition prior_duration (pf : FieldMap) (key : string) : float :=
  default 0%float (type_assert_float64 (map_index pf key)).

(** The fields [rollup] leaves in the parent, from the child's [meta.type]
    and [db.call], the duration and the parent's fields before. *)
Definition rollup_fields (metaType dbCall : Value) (dur : float)
    (pf : FieldMap) : FieldMap :=
  <[totalCallDurKey metaType dbCall :=
      VFloat64 (PrimFloat.add (prior_duration pf (totalCallDurKey metaType dbCall)) dur)]>
  (<[totalCallCountKey metaType dbCall :=
      VInt (int_add (prior_count pf (totalCallCountKey metaType dbCall)) 1)]>
  (<[totalMetaDurKey metaType :=
      VFloat64 (PrimFloat.add (prior_duration pf (totalMetaDurKey metaType)) dur)]>
  (<[totalMetaCountKey metaType :=
      VInt (int_add (prior_count pf (totalMetaCountKey metaType)) 1)]> pf))).

(** Setting a field when the parent has the field it is copied from. *)
Definition copy_field (key : string) (from : option Value) (fs : FieldMap) : FieldMap :=
  match from with
  | Some v => <[key := v]> fs
  | None => fs
  end.

(** The fields [addTraceID] leaves in the child, from the parent's fields
    (if the context carries a parent) and the identifier drawn. *)
Definition addTraceID_fields (parent : option FieldMap) (id : UUID)
    (fs : FieldMap) : FieldMap :=
  match parent with
  | None => fs
  | Some pf =>
      <["trace.span_id" := VString (UUID_String id)]>
      (copy_field "trace.parent_id" (pf !! "trace.span_id")
      (copy_field "trace.trace_id" (pf !! "trace.trace_id") fs))
  end.

(** [callNameChunks[len(callNameChunks)-1]]. *)
Definition db_call (callName : string) : string :=
  let callNameChunks := strings_Split callName "."%char in
  at_index callNameChunks (length callNameChunks - 1).

(** The fields of the child event [BuildDBEvent] returns. *)
Definition BuildDBEvent_fields (parent : option FieldMap) (id : UUID)
    (bld : Builder) (callName query : string) (args : option (list Value))
    : FieldMap :=
  let fs1 := <["db.call" := VString (db_call callName)]>
               (addTraceID_fields parent id (builderFields bld)) in
  let fs2 := if negb (String.eqb query "") then
               <["db.query" := VString query]> fs1 else fs1 in
  match args with
  | Some a => <["db.query_args" := VSlice a]> fs2
  | None => fs2
  end.

(** The fields of the child when the closure has run. *)
Definition finish_fields (elapsed : float) (err : option string)
    (cf : FieldMap) : FieldMap :=
  let fs1 := <["duration_ms" := VFloat64 elapsed]> cf in
  match err with
  | Some e => <["error" := VError e]> fs1
  | None => fs1
  end.

(** The fields of the parent that [BuildDBEvent] reads: those of the event
    in context, if there is one. *)
Definition parent_fields (ctx : Context) (w : World) : option FieldMap :=
  match ContextEvent ctx with
  | Some p => events w !! p
  | None => None
  end.

Definition child_draws (ctx : Context) : nat :=
  match ContextEvent ctx with Some _ => 1 | None => 0 end.

(** A span identifier that is present, a string, and not empty. *)
Definition has_span_id (fs : FieldMap) : Prop :=
  exists s : string, fs !! "trace.span_id" = Some (VString s) /\ s <> "".

(* ================================================================== *)
(** ** Example inputs *)

(** A float renderer and a UUID generator to run the examples with.  No
    example renders a [float64] through [%s]; the generator yields a
    different identifier for each of the first 256 draws. *)
Definition example_FormatFloat (f : float) : string := "<float64>".

Definition example_uuid_source (n : nat) : UUID :=
  MkUUID x00 x00 x00 x00 x00 x00 x40 x00 x80 x00 x00 x00 x00 x00 x00
         (default x00 (Byte.of_nat n)).

Definition request_plain : http_Request :=
  mkRequest "GET" (mkURL "/users" "example.com") "HTTP/1.1" 0 "10.0.0.7:51034" ∅.

Definition request_aws : http_Request :=
  mkRequest "GET" (mkURL "/users" "example.com") "HTTP/1.1" 0 "10.0.0.7:51034"
            {["X-Amzn-Trace-Id" := ["Root=1-111;CalledFrom=app"]]}.

Definition request_aws_malformed : http_Request :=
  mkRequest "GET" (mkURL "/users" "example.com") "HTTP/1.1" 0 "10.0.0.7:51034"
            {["X-Amzn-Trace-Id" := ["Self=1-222;garbage;CalledFrom=app"]]}.

Definition request_with_id : http_Request :=
  mkRequest "GET" (mkURL "/users" "example.com") "HTTP/1.1" 0 "10.0.0.7:51034"
            (<["Request-Id" := ["abc-123"]]>
               {["X-Amzn-Trace-Id" := ["Root=1-111;CalledFrom=app"]]}).

(** A store with one event without fields, at address 0. *)
Definition world_one_event : World := mkWorld {[0 := ∅]} 0 [].

(** The same store after two identifiers were drawn. *)
Definition world_later : World := mkWorld {[0 := ∅]} 2 [].

(** The generator when the random source fails on every call:
    [uuid.NewV4] then returns [uuid.Nil] beside an error, and the package
    discards the error ([id, _ := uuid.NewV4()]). *)
Definition failing_uuid_source (n : nat) : UUID := uuid_Nil.

(** A store with two events without fields, for two requests. *)
Definition world_two_events : World := mkWorld (<[1 := ∅]> {[0 := ∅]}) 0 [].

(** A store whose event 0 is a root span, and contexts with and without
    it. *)
Definition root_event_fields : FieldMap :=
  <["trace.span_id" := VString "span-0"]> {["trace.trace_id" := VString "abc-123"]}.

Definition world_with_root : World := mkWorld {[0 := root_event_fields]} 0 [].

Definition ctx_root : Context := mkContext (Some 0).
Definition ctx_none : Context := mkContext None.

(** A builder for database events. *)
Definition builder_db : Builder := mkBuilder {["meta.type" := VString "db"]}.

(** A store with the root span at 0 and an unfinished child at 1. *)
Definition child_event_fields : FieldMap :=
  <["db.call" := VString "query"]> {["meta.type" := VString "db"]}.

Definition world_with_child : World :=
  mkWorld (<[1 := child_event_fields]> {[0 := root_event_fields]}) 0 [].

(** A store whose one event already carries a field of the application. *)
Definition world_with_custom : World :=
  mkWorld {[0 := ({["app.version" := VString "1.2"]} : FieldMap)]} 0 [].

(** Stores with the root span at 0 and, at 1, a child whose type is the
    string [db_query], and a child without a type. *)
Definition world_with_db_query_child : World :=
  mkWorld (<[1 := ({["meta.type" := VString "db_query"]} : FieldMap)]>
             {[0 := root_event_fields]}) 0 [].

Definition world_with_untyped_child : World :=
  mkWorld (<[1 := ({["db.call" := VString "query"]} : FieldMap)]>
             {[0 := root_event_fields]}) 0 [].

(** Two children of the root span, built one after the other, whose
    closures then run as two goroutines. *)
Definition race_setup : Prog (list (Prog unit)) :=
  '(_, fn1) ← BuildDBEvent ctx_root builder_db "main.query" "SELECT 1" None;
  '(_, fn2) ← BuildDBEvent ctx_root builder_db "main.query" "SELECT 2" None;
  mret [fn1 10%float None; fn2 20%float None].

Definition race (schedule : list nat) : Outcome (list (Prog unit)) :=
  match run race_setup world_with_root with
  | Returns threads w => interleave schedule threads w
  | Panics => Panics
  end.

(** Each closure makes fourteen calls, of which the first eight read.  In
    the first schedule both goroutines read before either writes; in the
    second the first goroutine ends before the second starts. *)
Definition overlapping_schedule : list nat :=
  replicate 8 0 ++ replicate 8 1 ++ replicate 6 0 ++ replicate 6 1.

Definition sequential_schedule : list nat :=
  replicate 14 0 ++ replicate 14 1.

(** Whether every goroutine has ended, and a field of an event, in an
    outcome. *)
Definition all_finished (o : Outcome (list (Prog unit))) : bool :=
  match o with
  | Returns threads _ => forallb finished threads
  | Panics => false
  end.

Definition field_of {A : Type} (o : Outcome A) (ev : EventPtr) (key : string)
    : option Value :=
  match o with
  | Returns _ w => events w !! ev ≫= (fun fs : FieldMap => fs !! key)
  | Panics => None
  end.

(* ================================================================== *)
(** ** The response writer *)

Section Writer.

(** The wrapped [http.ResponseWriter]: its state, and what its own
    [WriteHeader] and [Write] do to it. *)
Variable W : Type.
Variable inner_WriteHeader : W -> Z -> W.
Variable inner_Write : W -> list byte -> W.

(** [type ResponseWriter struct { http.ResponseWriter; Status int }]. *)
Record ResponseWriter : Type := mkResponseWriter {
  wrapped : W;
  Status : Z
}.

(** [func (h *ResponseWriter) WriteHeader(statusCode int)]. *)
Definition WriteHeader (h : ResponseWriter) (statusCode : Z) : ResponseWriter :=
  let h1 := mkResponseWriter (wrapped h) statusCode in
  mkResponseWriter (inner_WriteHeader (wrapped h1) statusCode) (Status h1).

(** [Write] is not redefined: the embedded field promotes the wrapped
    writer's method, which does not see [Status]. *)
Definition ResponseWriter_Write (h : ResponseWriter) (data : list byte)
    : ResponseWriter :=
  mkResponseWriter (inner_Write (wrapped h) data) (Status h).

(** What a handler does to a writer. *)
Inductive WriterCall : Type :=
| DoWriteHeader (statusCode : Z)
| DoWrite (data : list byte).

Definition call_ResponseWriter (h : ResponseWriter) (c : WriterCall)
    : ResponseWriter :=
  match c with
  | DoWriteHeader statusCode => WriteHeader h statusCode
  | DoWrite data => ResponseWriter_Write h data
  end.

Definition call_wrapped (w : W) (c : WriterCall) : W :=
  match c with
  | DoWriteHeader statusCode => inner_WriteHeader w statusCode
  | DoWrite data => inner_Write w data
  end.

Definition is_WriteHeader (c : WriterCall) : bool :=
  match c with DoWriteHeader _ => true | DoWrite _ => false end.

End Writer.

(* ================================================================== *)
(** ** More callers and measures *)

(** [strings.Count(s, sep)] for a separator of one byte. *)
Fixpoint strings_Count (s : string) (sep : ascii) : nat :=
  match s with
  | EmptyString => 0
  | String c rest => (if Ascii.eqb c sep then 1 else 0) + strings_Count rest sep
  end.

(** The key under which a segment of the AWS header is recorded. *)
Definition aws_key (id : string) : string :=
  "request.header.aws_trace_id." +:+ at_index (strings_Split id "="%char) 0.

(** The keys [AddRequestProps] sets whatever the request holds, and the
    key it sets for a [Request-Id]. *)
Definition AddRequestProps_keys : list string :=
  ["meta.type"; "request.method"; "request.path"; "request.host";
   "request.proto"; "request.content_length"; "request.remote_addr";
   "request.header.user_agent"; "request.header.request_id";
   "trace.trace_id"; "trace.span_id"].

(** Whether a segment is recorded under the key [Root]. *)
Definition is_root_segment (id : string) : bool :=
  well_formed_segment id &&
  String.eqb (at_index (strings_Split id "="%char) 0) "Root".

(** Whether the AWS header has such a segment. *)
Definition has_root_segment (awsHeader : string) : bool :=
  existsb is_root_segment (strings_Split awsHeader ";"%char).

(** Child spans of one caller, built and finished one after the other;
    each entry gives the query, its arguments, the measured duration and
    the error of one child. *)
Fixpoint child_spans (ctx : Context) (bld : Builder) (callName : string)
    (children : list (string * option (list Value) * float * option string))
    : Prog unit :=
  match children with
  | [] => mret tt
  | (query, args, elapsed, err) :: rest =>
      child_span ctx bld callName query args elapsed err;;
      child_spans ctx bld callName rest
  end.

(** The durations of such children, in order. *)
Definition durations_of
    (children : list (string * option (list Value) * float * option string))
    : list float :=
  List.map (fun c => snd (fst c)) children.

(** The parent's fields after the rollups of several children of one type
    and call. *)
Definition rollups (metaType dbCall : Value) (durations : list float)
    (pf : FieldMap) : FieldMap :=
  fold_left (fun fs d => rollup_fields metaType dbCall d fs) durations pf.

(** An entry of the send log that is the finished event of a child: it
    carries the child's duration, and the child's error if it had one. *)
Definition sent_for (entry : EventPtr * FieldMap)
    (child : string * option (list Value) * float * option string) : Prop :=
  snd entry !! "duration_ms" = Some (VFloat64 (snd (fst child))) /\
  (forall e, snd child = Some e -> snd entry !! "error" = Some (VError e)).

(** A root span and then a child span built in the context that carries
    it, as a wrapped handler that makes one database call. *)
Definition root_then_child (req : http_Request) (ev : EventPtr) (bld : Builder)
    (callName query : string) (args : option (list Value))
    : Prog (EventPtr * (float -> option string -> Prog unit)) :=
  AddRequestProps req ev;;
  BuildDBEvent (mkContext (Some ev)) bld callName query args.

(** A child span whose closure is called twice. *)
Definition child_span_finished_twice (ctx : Context) (bld : Builder)
    (callName query : string) (args : option (list Value))
    (elapsed1 elapsed2 : float) (err : option string) : Prog EventPtr :=
  '(ev, fn) ← BuildDBEvent ctx bld callName query args;
  fn elapsed1 err;;
  fn elapsed2 err;;
  mret ev.

(* ================================================================== *)
(** * Properties *)

(** ** Strings and identifiers *)

Lemma strings_Split_nonempty (s : string) (sep : ascii) :
  strings_Split s sep <> [].
Proof.
  destruct s as [|c rest]; cbn; [discriminate|].
  destruct (Ascii.eqb c sep); [discriminate|].
  destruct (strings_Split rest sep); discriminate.
Qed.

Lemma append_cancel_l (p s t : string) : p +:+ s = p +:+ t -> s = t.
Proof. apply String.app_inj. Qed.

Lemma append_String (c : ascii) (s t : string) :
  String c s +:+ t = String c (s +:+ t).
Proof. reflexivity. Qed.

Lemma length_append (s t : string) :
  String.length (s +:+ t) = String.length s + String.length t.
Proof.
  induction s as [|c s IH]; [reflexivity|].
  rewrite append_String. cbn [String.length]. by rewrite IH.
Qed.

Lemma byte_of_hex_digits (b : byte) : byte_of_hex (hex_hi b) (hex_lo b) = Some b.
Proof. destruct b; vm_compute; reflexivity. Qed.

Lemma hex_digits_inj (a b : byte) :
  hex_hi a = hex_hi b -> hex_lo a = hex_lo b -> a = b.
Proof.
  intros Hhi Hlo.
  assert (H : Some a = Some b); [|by injection H].
  by rewrite <- (byte_of_hex_digits a), <- (byte_of_hex_digits b), Hhi, Hlo.
Qed.

Lemma UUID_String_inj (u v : UUID) : UUID_String u = UUID_String v -> u = v.
Proof.
  destruct u, v. unfold UUID_String. cbn [hex_Encode String.append].
  intros H. injection H as H. intros.
  f_equal; apply hex_digits_inj; assumption.
Qed.

Lemma UUID_String_length (u : UUID) : String.length (UUID_String u) = 36.
Proof. destruct u. reflexivity. Qed.

Lemma UUID_String_nonempty (u : UUID) : UUID_String u <> "".
Proof.
  intros H. pose proof (UUID_String_length u) as L. rewrite H in L. discriminate.
Qed.

(** ** Running programs *)

Lemma run_bind {A B : Type} (p : Prog A) (f : A -> Prog B) (w : World) :
  run (p ≫= f) w =
  match run p w with
  | Returns a w' => run (f a) w'
  | Panics => Panics
  end.
Proof.
  unfold mbind, Prog_bind. revert w.
  induction p as [a|bld k IH|ev key val k IH|ev k IH|[m] key k IH|ev k IH|k IH];
    intros w; cbn [run bind]; auto; destruct (events w !! _); auto.
Qed.

(** Running is making one call and running what is left. *)
Lemma run_step {A : Type} (p : Prog A) (w : World) :
  run p w =
  match p with
  | Ret a => Returns a w
  | _ => match step p w with
         | Returns p' w' => run p' w'
         | Panics => Panics
         end
  end.
Proof.
  destruct p as [a|bld k|ev key val k|ev k|[m] key k|ev k|k];
    cbn [run step]; auto; destruct (events w !! _); auto.
Qed.

Lemma events_upd (w : World) (ev : EventPtr) (fs : FieldMap) :
  events (upd w ev fs) !! ev = Some fs.
Proof. apply lookup_insert_eq. Qed.

Lemma events_upd_ne (w : World) (ev e : EventPtr) (fs : FieldMap) :
  ev <> e -> events (upd w ev fs) !! e = events w !! e.
Proof. intros H. by apply lookup_insert_ne. Qed.

Lemma upd_upd (w : World) (ev : EventPtr) (a b : FieldMap) :
  upd (upd w ev a) ev b = upd w ev b.
Proof. unfold upd, set_events. cbn. by rewrite insert_insert_eq. Qed.

Lemma upd_id (w : World) (ev : EventPtr) (fs : FieldMap) :
  events w !! ev = Some fs -> upd w ev fs = w.
Proof.
  intros H. destruct w as [es n l]. unfold upd, set_events. cbn in *.
  by rewrite insert_id.
Qed.

Lemma run_AddField (w : World) (ev : EventPtr) (key : string) (val : Value)
    (fs : FieldMap) :
  events w !! ev = Some fs ->
  run (AddField ev key val) w = Returns tt (upd w ev (<[key := val]> fs)).
Proof. intros H. cbn. by rewrite H. Qed.

(** [AddField] on an event whose fields were just replaced. *)
Lemma run_AddField_upd (w : World) (ev : EventPtr) (key : string) (val : Value)
    (fs : FieldMap) :
  run (AddField ev key val) (upd w ev fs) = Returns tt (upd w ev (<[key := val]> fs)).
Proof. by rewrite (run_AddField _ _ _ _ fs), upd_upd; [|apply events_upd]. Qed.

Lemma run_Fields (w : World) (ev : EventPtr) (fs : FieldMap) :
  events w !! ev = Some fs -> run (Fields ev) w = Returns (FieldsOf ev) w.
Proof. intros H. cbn. by rewrite H. Qed.

Lemma run_index (w : World) (ev : EventPtr) (key : string) (fs : FieldMap) :
  events w !! ev = Some fs ->
  run (index (FieldsOf ev) key) w = Returns (map_index fs key) w.
Proof. intros H. cbn. by rewrite H. Qed.

Lemma run_index_ok (w : World) (ev : EventPtr) (key : string) (fs : FieldMap) :
  events w !! ev = Some fs ->
  run (index_ok (FieldsOf ev) key) w = Returns (fs !! key) w.
Proof. intros H. cbn. by rewrite H. Qed.

Lemma run_uuid_NewV4 (w : World) :
  run uuid_NewV4 w =
  Returns (uuid_source (uuidsDrawn w))
          (mkWorld (events w) (S (uuidsDrawn w)) (sendLog w)).
Proof. reflexivity. Qed.

(** ** The root span: [parseTraceHeader] and [AddRequestProps] *)

Lemma run_parseTraceHeader_range (ids : list string) (ev : EventPtr)
    (traceID : string) (w : World) (fs : FieldMap) :
  run (parseTraceHeader_range ev ids traceID) (upd w ev fs) =
  Returns (range_traceID ids traceID) (upd w ev (range_fields ids fs)).
Proof.
  revert traceID fs.
  induction ids as [|id rest IH]; intros traceID fs; [reflexivity|].
  cbn [parseTraceHeader_range range_traceID range_fields].
  unfold well_formed_segment.
  destruct (Nat.eqb (length (strings_Split id "=")) 2); cbn [negb].
  - rewrite run_bind, run_AddField_upd. apply IH.
  - apply IH.
Qed.

Lemma run_parseTraceHeader (req : http_Request) (ev : EventPtr) (w : World)
    (fs : FieldMap) :
  run (parseTraceHeader req ev) (upd w ev fs) =
  Returns
    (if String.eqb (traceID_candidate req) ""
     then UUID_String (uuid_source (uuidsDrawn w))
     else traceID_candidate req)
    (mkWorld (<[ev := parseTraceHeader_fields req fs]> (events w))
             (if String.eqb (traceID_candidate req) ""
              then S (uuidsDrawn w) else uuidsDrawn w)
             (sendLog w)).
Proof.
  unfold parseTraceHeader, traceID_candidate, parseTraceHeader_fields.
  set (aws := Header_Get (Header req) "X-Amzn-Trace-Id").
  set (rid := Header_Get (Header req) "Request-Id").
  rewrite run_bind.
  assert (Haws :
    run (if negb (String.eqb aws "")
         then parseTraceHeader_range ev (strings_Split aws ";") ""
         else mret "") (upd w ev fs) =
    Returns (if negb (String.eqb aws "")
             then range_traceID (strings_Split aws ";") "" else "")
            (upd w ev (if negb (String.eqb aws "")
                       then range_fields (strings_Split aws ";") fs else fs))).
  { destruct (negb (String.eqb aws "")); [apply run_parseTraceHeader_range|reflexivity]. }
  rewrite Haws. clear Haws. rewrite run_bind.
  destruct (negb (String.eqb rid "")) eqn:Hrid.
  - rewrite run_bind, run_AddField_upd. cbn [run mret Prog_ret].
    apply negb_true_iff in Hrid. rewrite Hrid.
    reflexivity.
  - cbn [run mret Prog_ret].
    destruct (String.eqb (if negb (String.eqb aws "") then _ else _) "");
      reflexivity.
Qed.

Lemma run_AddRequestProps (req : http_Request) (ev : EventPtr) (w : World)
    (fs : FieldMap) :
  events w !! ev = Some fs ->
  run (AddRequestProps req ev) w =
  Returns tt
    (mkWorld (<[ev := AddRequestProps_fields req (uuidsDrawn w) fs]> (events w))
             (root_draws req + uuidsDrawn w)
             (sendLog w)).
Proof.
  intros Hev. unfold AddRequestProps.
  rewrite run_bind, (run_AddField _ _ _ _ _ Hev).
  do 7 rewrite run_bind, run_AddField_upd.
  fold (request_fields req fs).
  rewrite run_bind, run_parseTraceHeader.
  unfold AddRequestProps_fields, root_traceID, root_spanID, root_draws.
  destruct (String.eqb (traceID_candidate req) "");
    cbn; rewrite !lookup_insert_eq; cbn; by rewrite !insert_insert_eq.
Qed.

(** The AWS segments only set keys under ["request.header.aws_trace_id."]. *)
Lemma range_fields_other (ids : list string) (fs : FieldMap) (key : string) :
  (forall k, key <> "request.header.aws_trace_id." +:+ k) ->
  range_fields ids fs !! key = fs !! key.
Proof.
  intros Hkey. revert fs.
  induction ids as [|id rest IH]; intros fs; [reflexivity|].
  cbn [range_fields]. destruct (well_formed_segment id); [|apply IH].
  rewrite IH. apply lookup_insert_ne. intros E. by eapply Hkey.
Qed.

(** [parseTraceHeader] keeps every field that is neither an AWS segment nor
    the request ID. *)
Lemma parseTraceHeader_fields_other (req : http_Request) (fs : FieldMap)
    (key : string) :
  (forall k, key <> "request.header.aws_trace_id." +:+ k) ->
  key <> "request.header.request_id" ->
  parseTraceHeader_fields req fs !! key = fs !! key.
Proof.
  intros Haws Hrid. unfold parseTraceHeader_fields.
  destruct (negb (String.eqb (Header_Get (Header req) "Request-Id") ""));
    [rewrite lookup_insert_ne by congruence|];
    (destruct (negb (String.eqb (Header_Get (Header req) "X-Amzn-Trace-Id") ""));
     [by apply range_fields_other|reflexivity]).
Qed.

Lemma AddRequestProps_fields_trace_id (req : http_Request) (n : nat) (fs : FieldMap) :
  AddRequestProps_fields req n fs !! "trace.trace_id" =
  Some (VString (root_traceID req n)).
Proof.
  unfold AddRequestProps_fields.
  rewrite lookup_insert_ne by discriminate. apply lookup_insert_eq.
Qed.

Lemma AddRequestProps_fields_span_id (req : http_Request) (n : nat) (fs : FieldMap) :
  AddRequestProps_fields req n fs !! "trace.span_id" =
  Some (VString (root_spanID req n)).
Proof. unfold AddRequestProps_fields. apply lookup_insert_eq. Qed.

Lemma AddRequestProps_fields_parent_id (req : http_Request) (n : nat) (fs : FieldMap) :
  AddRequestProps_fields req n fs !! "trace.parent_id" = fs !! "trace.parent_id".
Proof.
  unfold AddRequestProps_fields.
  rewrite !lookup_insert_ne by discriminate.
  rewrite parseTraceHeader_fields_other; [|intros k; discriminate|discriminate].
  unfold request_fields. by rewrite !lookup_insert_ne by discriminate.
Qed.

Lemma traceID_candidate_request_id (req : http_Request) :
  Header_Get (Header req) "Request-Id" <> "" ->
  traceID_candidate req = Header_Get (Header req) "Request-Id".
Proof.
  intros H. unfold traceID_candidate.
  destruct (String.eqb_spec (Header_Get (Header req) "Request-Id") ""); done.
Qed.

Lemma traceID_candidate_no_headers (req : http_Request) :
  Header_Get (Header req) "X-Amzn-Trace-Id" = "" ->
  Header_Get (Header req) "Request-Id" = "" ->
  traceID_candidate req = "".
Proof. intros Ha Hr. unfold traceID_candidate. by rewrite Ha, Hr. Qed.

(** The loop over the segments assigns nothing but the literal key
    ["Root"] to [traceID]. *)
Lemma range_traceID_values (ids : list string) (traceID : string) :
  range_traceID ids traceID = traceID \/ range_traceID ids traceID = "Root".
Proof.
  revert traceID. induction ids as [|id rest IH]; intros traceID; [by left|].
  cbn [range_traceID]. destruct (well_formed_segment id); [|apply IH].
  destruct (String.eqb_spec (at_index (strings_Split id "=") 0) "Root") as [E|_];
    [|apply IH].
  rewrite E. destruct (IH "Root") as [->| ->]; by right.
Qed.

(** So a well-formed segment with key [Root] makes the candidate ["Root"],
    whatever its value. *)
Lemma range_traceID_Root (ids : list string) (traceID id value : string) :
  id ∈ ids ->
  strings_Split id "="%char = ["Root"; value] ->
  range_traceID ids traceID = "Root".
Proof.
  intros Hin Hsplit. revert traceID.
  induction ids as [|i rest IH]; intros traceID; [by apply elem_of_nil in Hin|].
  cbn [range_traceID]. apply elem_of_cons in Hin as [<-|Hin].
  - unfold well_formed_segment. rewrite Hsplit. cbn.
    destruct (range_traceID_values rest "Root") as [->| ->]; reflexivity.
  - destruct (well_formed_segment i); by apply IH.
Qed.

(** C6: when the [Request-Id] header is not empty, [parseTraceHeader]
    returns its value whatever the AWS header holds, and the root span that
    [AddRequestProps] fills carries that value both as [trace.trace_id] and
    as [request.header.request_id]. *)
Theorem request_id_becomes_trace_id (req : http_Request) (ev : EventPtr)
    (w : World) (fs : FieldMap) :
  events w !! ev = Some fs ->
  Header_Get (Header req) "Request-Id" <> "" ->
  (exists w1,
     run (parseTraceHeader req ev) w =
     Returns (Header_Get (Header req) "Request-Id") w1) /\
  (exists w' fs',
     run (AddRequestProps req ev) w = Returns tt w' /\
     events w' !! ev = Some fs' /\
     fs' !! "trace.trace_id" =
       Some (VString (Header_Get (Header req) "Request-Id")) /\
     fs' !! "request.header.request_id" =
       Some (VString (Header_Get (Header req) "Request-Id"))).
Proof.
  intros Hev Hrid. pose proof (traceID_candidate_request_id req Hrid) as Hcand.
  split.
  - pose proof (run_parseTraceHeader req ev w fs) as R.
    rewrite (upd_id _ _ _ Hev) in R. rewrite R.
    rewrite Hcand. destruct (String.eqb_spec (Header_Get (Header req) "Request-Id") "");
      [done|eauto].
  - eexists _, _. split; [by apply run_AddRequestProps|].
    split; [apply lookup_insert_eq|]. split.
    + rewrite AddRequestProps_fields_trace_id. unfold root_traceID. rewrite Hcand.
      by destruct (String.eqb_spec (Header_Get (Header req) "Request-Id") "").
    + unfold AddRequestProps_fields, parseTraceHeader_fields.
      rewrite !lookup_insert_ne by discriminate.
      destruct (String.eqb_spec (Header_Get (Header req) "Request-Id") ""); [done|].
      apply lookup_insert_eq.
Qed.

(** C7, as the code has it: for a request with neither an
    [X-Amzn-Trace-Id] nor a [Request-Id] header, [AddRequestProps] leaves a
    non-empty [trace.trace_id] and a non-empty [trace.span_id], rendered
    from two identifiers that this very call draws from [uuid.NewV4].  The
    IDs of two such calls differ exactly when the identifiers drawn differ:
    nothing but the generator decides it. *)
Theorem fabricated_ids_nonempty_and_drawn_anew (req1 req2 : http_Request)
    (ev1 ev2 : EventPtr) (w1 w2 : World) (fs1 fs2 : FieldMap) :
  Header_Get (Header req1) "X-Amzn-Trace-Id" = "" ->
  Header_Get (Header req1) "Request-Id" = "" ->
  Header_Get (Header req2) "X-Amzn-Trace-Id" = "" ->
  Header_Get (Header req2) "Request-Id" = "" ->
  events w1 !! ev1 = Some fs1 ->
  events w2 !! ev2 = Some fs2 ->
  exists w1' w2' root1 root2 t1 s1 t2 s2,
    run (AddRequestProps req1 ev1) w1 = Returns tt w1' /\
    run (AddRequestProps req2 ev2) w2 = Returns tt w2' /\
    events w1' !! ev1 = Some root1 /\
    events w2' !! ev2 = Some root2 /\
    root1 !! "trace.trace_id" = Some (VString t1) /\
    root1 !! "trace.span_id" = Some (VString s1) /\
    root2 !! "trace.trace_id" = Some (VString t2) /\
    root2 !! "trace.span_id" = Some (VString s2) /\
    t1 = UUID_String (uuid_source (uuidsDrawn w1)) /\
    s1 = UUID_String (uuid_source (S (uuidsDrawn w1))) /\
    t2 = UUID_String (uuid_source (uuidsDrawn w2)) /\
    s2 = UUID_String (uuid_source (S (uuidsDrawn w2))) /\
    uuidsDrawn w1' = 2 + uuidsDrawn w1 /\
    uuidsDrawn w2' = 2 + uuidsDrawn w2 /\
    t1 <> "" /\ s1 <> "" /\ t2 <> "" /\ s2 <> "" /\
    (t1 <> t2 <->
     uuid_source (uuidsDrawn w1) <> uuid_source (uuidsDrawn w2)) /\
    (s1 <> s2 <->
     uuid_source (S (uuidsDrawn w1)) <> uuid_source (S (uuidsDrawn w2))).
Proof.
  intros Ha1 Hr1 Ha2 Hr2 Hev1 Hev2.
  pose proof (traceID_candidate_no_headers req1 Ha1 Hr1) as C1.
  pose proof (traceID_candidate_no_headers req2 Ha2 Hr2) as C2.
  eexists _, _, _, _, _, _, _, _.
  split; [by apply run_AddRequestProps|].
  split; [by apply run_AddRequestProps|].
  split; [apply lookup_insert_eq|]. split; [apply lookup_insert_eq|].
  split; [apply AddRequestProps_fields_trace_id|].
  split; [apply AddRequestProps_fields_span_id|].
  split; [apply AddRequestProps_fields_trace_id|].
  split; [apply AddRequestProps_fields_span_id|].
  unfold root_traceID, root_spanID, root_draws. rewrite C1, C2. cbn.
  do 6 (split; [reflexivity|]).
  do 4 (split; [apply UUID_String_nonempty|]).
  split; (split; [intros Hne E; apply Hne; by rewrite E
                 |intros Hne E%UUID_String_inj; by apply Hne]).
Qed.

(** The loop over the segments of a header that contains a malformed
    segment is the loop over the header without it. *)
Lemma parseTraceHeader_range_skip (ev : EventPtr) (before after : list string)
    (id traceID : string) :
  length (strings_Split id "="%char) <> 2 ->
  parseTraceHeader_range ev (before ++ id :: after) traceID =
  parseTraceHeader_range ev (before ++ after) traceID.
Proof.
  intros Hbad. revert traceID.
  induction before as [|b before IH]; intros traceID.
  - cbn [app parseTraceHeader_range].
    destruct (Nat.eqb_spec (length (strings_Split id "=")) 2); done.
  - cbn [app parseTraceHeader_range].
    destruct (negb (Nat.eqb (length (strings_Split b "=")) 2)); [apply IH|].
    by rewrite IH.
Qed.

(** C8: a segment of the [X-Amzn-Trace-Id] header that does not split into
    exactly two parts on [=] is skipped.  The loop over the segments makes
    the same calls and ends with the same trace-ID candidate as the loop over
    the header without that segment, so the segment adds no field; and
    [AddRequestProps] returns for every header. *)
Theorem malformed_segment_skipped (req : http_Request) (ev : EventPtr)
    (w : World) (fs : FieldMap) (before after : list string) (id : string) :
  events w !! ev = Some fs ->
  strings_Split (Header_Get (Header req) "X-Amzn-Trace-Id") ";"%char
    = before ++ id :: after ->
  length (strings_Split id "="%char) <> 2 ->
  (forall traceID,
     parseTraceHeader_range ev [id] traceID = mret traceID) /\
  (forall traceID,
     parseTraceHeader_range ev
       (strings_Split (Header_Get (Header req) "X-Amzn-Trace-Id") ";"%char) traceID
     = parseTraceHeader_range ev (before ++ after) traceID) /\
  (exists w' fs',
     run (AddRequestProps req ev) w = Returns tt w' /\
     events w' !! ev = Some fs' /\
     has_span_id fs').
Proof.
  intros Hev Hsplit Hbad. split; [|split].
  - intros traceID. by apply (parseTraceHeader_range_skip ev [] []).
  - intros traceID. rewrite Hsplit. by apply parseTraceHeader_range_skip.
  - eexists _, _. split; [by apply run_AddRequestProps|].
    split; [apply lookup_insert_eq|].
    eexists. split; [apply AddRequestProps_fields_span_id|].
    unfold root_spanID. destruct (String.eqb _ _); apply UUID_String_nonempty.
Qed.

(** ** The rollup keys *)

Lemma length_ne (s t : string) : String.length s <> String.length t -> s <> t.
Proof. intros H E. by rewrite E in H. Qed.

Lemma totals_key_inj (metaType : Value) (s t : string) :
  "totals." +:+ fmt_verb_s metaType +:+ s = "totals." +:+ fmt_verb_s metaType +:+ t ->
  s = t.
Proof. intros H. by do 2 apply append_cancel_l in H. Qed.

Lemma MetaCount_ne_MetaDur (metaType : Value) :
  totalMetaCountKey metaType <> totalMetaDurKey metaType.
Proof. intros H%totals_key_inj. discriminate. Qed.

Lemma MetaCount_ne_CallCount (metaType dbCall : Value) :
  totalMetaCountKey metaType <> totalCallCountKey metaType dbCall.
Proof.
  intros H%totals_key_inj. revert H. apply length_ne.
  rewrite !length_append. cbn.
  generalize (String.length (fmt_verb_s dbCall)). intros n. lia.
Qed.

Lemma MetaCount_ne_CallDur (metaType dbCall : Value) :
  totalMetaCountKey metaType <> totalCallDurKey metaType dbCall.
Proof.
  intros H%totals_key_inj. revert H. apply length_ne.
  rewrite !length_append. cbn.
  generalize (String.length (fmt_verb_s dbCall)). intros n. lia.
Qed.

Lemma MetaDur_ne_CallDur (metaType dbCall : Value) :
  totalMetaDurKey metaType <> totalCallDurKey metaType dbCall.
Proof.
  intros H%totals_key_inj. revert H. apply length_ne.
  rewrite !length_append. cbn.
  generalize (String.length (fmt_verb_s dbCall)). intros n. lia.
Qed.

Lemma CallCount_ne_CallDur (metaType dbCall : Value) :
  totalCallCountKey metaType dbCall <> totalCallDurKey metaType dbCall.
Proof.
  intros H%totals_key_inj. do 2 apply append_cancel_l in H. discriminate.
Qed.

(** The one pair of suffixes whose lengths can agree: the texts still
    differ, because no five characters followed by ["_count"] spell
    ["duration_ms"]. *)
Lemma MetaDur_ne_CallCount (metaType dbCall : Value) :
  totalMetaDurKey metaType <> totalCallCountKey metaType dbCall.
Proof.
  intros H%totals_key_inj. revert H. generalize (fmt_verb_s dbCall) as c.
  intros c H. injection H as H.
  destruct c as [|c1 [|c2 [|c3 [|c4 [|c5 [|c6 c]]]]]];
    try discriminate H.
  revert H. apply length_ne. rewrite !length_append. cbn. lia.
Qed.

(** ** [rollup] *)

Lemma prior_count_absent (pf : FieldMap) (key : string) :
  (forall n, pf !! key <> Some (VInt n)) -> prior_count pf key = 0%Z.
Proof.
  intros H. unfold prior_count, map_index.
  destruct (pf !! key) as [[]|]; try reflexivity. by destruct (H n).
Qed.

Lemma prior_duration_absent (pf : FieldMap) (key : string) :
  (forall f, pf !! key <> Some (VFloat64 f)) -> prior_duration pf key = 0%float.
Proof.
  intros H. unfold prior_duration, map_index.
  destruct (pf !! key) as [[]|]; try reflexivity. by destruct (H f).
Qed.

Lemma run_rollup_no_parent (ctx : Context) (ev : EventPtr) (dur : float)
    (w : World) :
  ContextEvent ctx = None -> run (rollup ctx ev dur) w = Returns tt w.
Proof. intros H. unfold rollup. by rewrite H. Qed.

Lemma run_rollup (ctx : Context) (p ev : EventPtr) (dur : float) (w : World)
    (pf ef : FieldMap) :
  ContextEvent ctx = Some p ->
  events w !! p = Some pf ->
  events w !! ev = Some ef ->
  run (rollup ctx ev dur) w =
  Returns tt
    (upd w p (rollup_fields (map_index ef "meta.type") (map_index ef "db.call") dur pf)).
Proof.
  intros Hctx Hp Hev. unfold rollup. rewrite Hctx.
  rewrite run_bind, (run_Fields _ _ _ Hev).
  rewrite run_bind, (run_Fields _ _ _ Hp).
  do 2 rewrite run_bind, (run_index _ _ _ _ Hev).
  do 4 rewrite run_bind, (run_index _ _ _ _ Hp).
  rewrite run_bind, (run_AddField _ _ _ _ _ Hp).
  do 2 rewrite run_bind, run_AddField_upd.
  by rewrite run_AddField_upd.
Qed.

Lemma rollup_fields_other (metaType dbCall : Value) (dur : float)
    (pf : FieldMap) (key : string) :
  key <> totalMetaCountKey metaType ->
  key <> totalMetaDurKey metaType ->
  key <> totalCallCountKey metaType dbCall ->
  key <> totalCallDurKey metaType dbCall ->
  rollup_fields metaType dbCall dur pf !! key = pf !! key.
Proof.
  intros. unfold rollup_fields. by rewrite !lookup_insert_ne by congruence.
Qed.

Lemma rollup_fields_MetaCount (metaType dbCall : Value) (dur : float) (pf : FieldMap) :
  rollup_fields metaType dbCall dur pf !! totalMetaCountKey metaType =
  Some (VInt (int_add (prior_count pf (totalMetaCountKey metaType)) 1)).
Proof.
  unfold rollup_fields.
  rewrite lookup_insert_ne by (apply not_eq_sym, MetaCount_ne_CallDur).
  rewrite lookup_insert_ne by (apply not_eq_sym, MetaCount_ne_CallCount).
  rewrite lookup_insert_ne by (apply not_eq_sym, MetaCount_ne_MetaDur).
  apply lookup_insert_eq.
Qed.

Lemma rollup_fields_MetaDur (metaType dbCall : Value) (dur : float) (pf : FieldMap) :
  rollup_fields metaType dbCall dur pf !! totalMetaDurKey metaType =
  Some (VFloat64 (PrimFloat.add (prior_duration pf (totalMetaDurKey metaType)) dur)).
Proof.
  unfold rollup_fields.
  rewrite lookup_insert_ne by (apply not_eq_sym, MetaDur_ne_CallDur).
  rewrite lookup_insert_ne by (apply not_eq_sym, MetaDur_ne_CallCount).
  apply lookup_insert_eq.
Qed.

Lemma rollup_fields_CallCount (metaType dbCall : Value) (dur : float) (pf : FieldMap) :
  rollup_fields metaType dbCall dur pf !! totalCallCountKey metaType dbCall =
  Some (VInt (int_add (prior_count pf (totalCallCountKey metaType dbCall)) 1)).
Proof.
  unfold rollup_fields.
  rewrite lookup_insert_ne by (apply not_eq_sym, CallCount_ne_CallDur).
  apply lookup_insert_eq.
Qed.

Lemma rollup_fields_CallDur (metaType dbCall : Value) (dur : float) (pf : FieldMap) :
  rollup_fields metaType dbCall dur pf !! totalCallDurKey metaType dbCall =
  Some (VFloat64 (PrimFloat.add (prior_duration pf (totalCallDurKey metaType dbCall)) dur)).
Proof. unfold rollup_fields. apply lookup_insert_eq. Qed.

(** A counter as the next [rollup] reads it. *)
Lemma prior_count_rollup_meta (metaType dbCall : Value) (dur : float) (pf : FieldMap) :
  prior_count (rollup_fields metaType dbCall dur pf) (totalMetaCountKey metaType) =
  int_add (prior_count pf (totalMetaCountKey metaType)) 1.
Proof.
  unfold prior_count at 1, map_index. by rewrite rollup_fields_MetaCount.
Qed.

Lemma prior_duration_rollup_meta (metaType dbCall : Value) (dur : float) (pf : FieldMap) :
  prior_duration (rollup_fields metaType dbCall dur pf) (totalMetaDurKey metaType) =
  PrimFloat.add (prior_duration pf (totalMetaDurKey metaType)) dur.
Proof.
  unfold prior_duration at 1, map_index. by rewrite rollup_fields_MetaDur.
Qed.

Lemma prior_count_rollup_call (metaType dbCall : Value) (dur : float) (pf : FieldMap) :
  prior_count (rollup_fields metaType dbCall dur pf) (totalCallCountKey metaType dbCall) =
  int_add (prior_count pf (totalCallCountKey metaType dbCall)) 1.
Proof.
  unfold prior_count at 1, map_index. by rewrite rollup_fields_CallCount.
Qed.

Lemma prior_duration_rollup_call (metaType dbCall : Value) (dur : float) (pf : FieldMap) :
  prior_duration (rollup_fields metaType dbCall dur pf) (totalCallDurKey metaType dbCall) =
  PrimFloat.add (prior_duration pf (totalCallDurKey metaType dbCall)) dur.
Proof.
  unfold prior_duration at 1, map_index. by rewrite rollup_fields_CallDur.
Qed.

(** C10: with a parent event in context, [rollup] returns, and the store
    afterwards differs from the store before only in the parent's four
    [totals.] keys derived from the child's [meta.type] and [db.call].
    Every other field of the parent, every field of the child and of any
    other event, the UUID counter and the send log are as before.  Each new
    counter is the prior one plus one (plus the duration), where a prior
    counter that is absent or not of the expected numeric type counts as
    zero. *)
Theorem rollup_writes_four_parent_keys (ctx : Context) (p ev : EventPtr)
    (dur : float) (w : World) (pf ef : FieldMap) :
  ContextEvent ctx = Some p ->
  events w !! p = Some pf ->
  events w !! ev = Some ef ->
  ev <> p ->
  exists w' pf',
    run (rollup ctx ev dur) w = Returns tt w' /\
    events w' !! p = Some pf' /\
    (forall key,
       key <> totalMetaCountKey (map_index ef "meta.type") ->
       key <> totalMetaDurKey (map_index ef "meta.type") ->
       key <> totalCallCountKey (map_index ef "meta.type") (map_index ef "db.call") ->
       key <> totalCallDurKey (map_index ef "meta.type") (map_index ef "db.call") ->
       pf' !! key = pf !! key) /\
    events w' !! ev = Some ef /\
    (forall e, e <> p -> events w' !! e = events w !! e) /\
    uuidsDrawn w' = uuidsDrawn w /\
    sendLog w' = sendLog w /\
    pf' !! totalMetaCountKey (map_index ef "meta.type") =
      Some (VInt (int_add
        (prior_count pf (totalMetaCountKey (map_index ef "meta.type"))) 1)) /\
    pf' !! totalMetaDurKey (map_index ef "meta.type") =
      Some (VFloat64 (PrimFloat.add
        (prior_duration pf (totalMetaDurKey (map_index ef "meta.type"))) dur)) /\
    pf' !! totalCallCountKey (map_index ef "meta.type") (map_index ef "db.call") =
      Some (VInt (int_add
        (prior_count pf
           (totalCallCountKey (map_index ef "meta.type") (map_index ef "db.call"))) 1)) /\
    pf' !! totalCallDurKey (map_index ef "meta.type") (map_index ef "db.call") =
      Some (VFloat64 (PrimFloat.add
        (prior_duration pf
           (totalCallDurKey (map_index ef "meta.type") (map_index ef "db.call"))) dur)) /\
    (forall key, (forall n, pf !! key <> Some (VInt n)) -> prior_count pf key = 0%Z) /\
    (forall key, (forall f, pf !! key <> Some (VFloat64 f)) ->
                 prior_duration pf key = 0%float).
Proof.
  intros Hctx Hp Hev Hne.
  eexists _, _. split; [by eapply run_rollup|].
  split; [apply events_upd|].
  split; [intros key; apply rollup_fields_other|].
  split; [by rewrite events_upd_ne|].
  split; [intros e He; by apply events_upd_ne|].
  split; [reflexivity|]. split; [reflexivity|].
  split; [apply rollup_fields_MetaCount|].
  split; [apply rollup_fields_MetaDur|].
  split; [apply rollup_fields_CallCount|].
  split; [apply rollup_fields_CallDur|].
  split; [apply prior_count_absent|apply prior_duration_absent].
Qed.

(** ** Child spans: [addTraceID], [BuildDBEvent] and the finish closure *)

(** [NewEvent] returns an address that no event of the store has. *)
Lemma fresh_event_unallocated (w : World) :
  events w !! fresh (dom (events w)) = None.
Proof. apply not_elem_of_dom, is_fresh. Qed.

Lemma run_NewEvent (bld : Builder) (w : World) :
  run (NewEvent bld) w =
  Returns (fresh (dom (events w)))
          (upd w (fresh (dom (events w))) (builderFields bld)).
Proof. reflexivity. Qed.

Lemma run_addTraceID_no_parent (ctx : Context) (ev : EventPtr) (w : World) :
  ContextEvent ctx = None -> run (addTraceID ctx ev) w = Returns tt w.
Proof. intros H. unfold addTraceID. by rewrite H. Qed.

Lemma run_addTraceID (ctx : Context) (p ev : EventPtr) (w : World)
    (pf fs : FieldMap) :
  ContextEvent ctx = Some p ->
  events w !! p = Some pf ->
  ev <> p ->
  run (addTraceID ctx ev) (upd w ev fs) =
  Returns tt
    (mkWorld
       (<[ev := addTraceID_fields (Some pf) (uuid_source (uuidsDrawn w)) fs]> (events w))
       (S (uuidsDrawn w)) (sendLog w)).
Proof.
  intros Hctx Hp Hne. unfold addTraceID. rewrite Hctx.
  assert (Hp' : forall x, events (upd w ev x) !! p = Some pf)
    by (intros x; by rewrite events_upd_ne).
  rewrite run_bind, (run_Fields _ _ _ (Hp' _)).
  rewrite run_bind, (run_index_ok _ _ _ _ (Hp' _)).
  rewrite run_bind.
  assert (H1 :
    run (match pf !! "trace.trace_id" with
         | Some id => AddField ev "trace.trace_id" id
         | None => mret tt
         end) (upd w ev fs) =
    Returns tt (upd w ev (copy_field "trace.trace_id" (pf !! "trace.trace_id") fs))).
  { destruct (pf !! "trace.trace_id"); [apply run_AddField_upd|reflexivity]. }
  rewrite H1. clear H1.
  rewrite run_bind, (run_Fields _ _ _ (Hp' _)).
  rewrite run_bind, (run_index_ok _ _ _ _ (Hp' _)).
  rewrite run_bind.
  set (fs1 := copy_field "trace.trace_id" (pf !! "trace.trace_id") fs).
  assert (H2 :
    run (match pf !! "trace.span_id" with
         | Some id => AddField ev "trace.parent_id" id
         | None => mret tt
         end) (upd w ev fs1) =
    Returns tt (upd w ev (copy_field "trace.parent_id" (pf !! "trace.span_id") fs1))).
  { destruct (pf !! "trace.span_id"); [apply run_AddField_upd|reflexivity]. }
  rewrite H2. clear H2.
  rewrite run_bind, run_uuid_NewV4.
  cbn. rewrite lookup_insert_eq. cbn. by rewrite insert_insert_eq.
Qed.

(** [BuildDBEvent] returns when the context carries no event or an event of
    the store; the child is a new event, and no other event changes. *)
Lemma run_BuildDBEvent (ctx : Context) (bld : Builder) (callName query : string)
    (args : option (list Value)) (w : World) :
  (forall p, ContextEvent ctx = Some p -> is_Some (events w !! p)) ->
  run (BuildDBEvent ctx bld callName query args) w =
  Returns
    (fresh (dom (events w)), BuildDBEvent_fn ctx (fresh (dom (events w))))
    (mkWorld
       (<[fresh (dom (events w)) :=
            BuildDBEvent_fields (parent_fields ctx w) (uuid_source (uuidsDrawn w))
                                bld callName query args]> (events w))
       (child_draws ctx + uuidsDrawn w) (sendLog w)).
Proof.
  intros Hctx. unfold BuildDBEvent, parent_fields, child_draws.
  rewrite run_bind, run_NewEvent.
  set (c := fresh (dom (events w))).
  pose proof (fresh_event_unallocated w) as Hc. fold c in Hc.
  rewrite run_bind.
  assert (Htrace :
    run (addTraceID ctx c) (upd w c (builderFields bld)) =
    Returns tt
      (upd (mkWorld (events w)
                    (match ContextEvent ctx with Some _ => 1 | None => 0 end
                     + uuidsDrawn w) (sendLog w))
           c (addTraceID_fields
                (match ContextEvent ctx with Some p => events w !! p | None => None end)
                (uuid_source (uuidsDrawn w)) (builderFields bld)))).
  { destruct (ContextEvent ctx) as [p|] eqn:Ep.
    - destruct (Hctx p eq_refl) as [pf Hp]. rewrite Hp.
      rewrite (run_addTraceID ctx p c w pf _ Ep Hp); [reflexivity|].
      intros ->. congruence.
    - by rewrite run_addTraceID_no_parent. }
  rewrite Htrace. clear Htrace.
  rewrite run_bind, run_AddField_upd. fold (db_call callName).
  unfold BuildDBEvent_fields.
  rewrite run_bind.
  destruct (negb (String.eqb query "")).
  - rewrite run_AddField_upd. rewrite run_bind.
    destruct args; [rewrite run_AddField_upd|]; reflexivity.
  - cbn [run mret Prog_ret]. rewrite run_bind.
    destruct args; [rewrite run_AddField_upd|]; reflexivity.
Qed.

(** The keys [BuildDBEvent] sets besides the trace identity. *)
Lemma BuildDBEvent_fields_lookup (parent : option FieldMap) (id : UUID)
    (bld : Builder) (callName query : string) (args : option (list Value))
    (key : string) :
  key <> "db.call" -> key <> "db.query" -> key <> "db.query_args" ->
  BuildDBEvent_fields parent id bld callName query args !! key =
  addTraceID_fields parent id (builderFields bld) !! key.
Proof.
  intros H1 H2 H3. unfold BuildDBEvent_fields.
  destruct args; destruct (negb (String.eqb query ""));
    by rewrite !lookup_insert_ne by congruence.
Qed.

Lemma BuildDBEvent_fields_db_call (parent : option FieldMap) (id : UUID)
    (bld : Builder) (callName query : string) (args : option (list Value)) :
  BuildDBEvent_fields parent id bld callName query args !! "db.call" =
  Some (VString (db_call callName)).
Proof.
  unfold BuildDBEvent_fields.
  destruct args; destruct (negb (String.eqb query ""));
    rewrite ?lookup_insert_ne by discriminate; apply lookup_insert_eq.
Qed.

Lemma addTraceID_fields_lookup (parent : option FieldMap) (id : UUID)
    (fs : FieldMap) (key : string) :
  key <> "trace.trace_id" -> key <> "trace.parent_id" -> key <> "trace.span_id" ->
  addTraceID_fields parent id fs !! key = fs !! key.
Proof.
  intros H1 H2 H3. unfold addTraceID_fields, copy_field.
  destruct parent as [pf|]; [|reflexivity].
  destruct (pf !! "trace.span_id"), (pf !! "trace.trace_id");
    by rewrite !lookup_insert_ne by congruence.
Qed.

Lemma BuildDBEvent_fields_meta_type (parent : option FieldMap) (id : UUID)
    (bld : Builder) (callName query : string) (args : option (list Value)) :
  BuildDBEvent_fields parent id bld callName query args !! "meta.type" =
  builderFields bld !! "meta.type".
Proof.
  rewrite BuildDBEvent_fields_lookup by discriminate.
  by rewrite addTraceID_fields_lookup by discriminate.
Qed.

(** The closure, when the context carries no event. *)
Lemma run_fn_no_parent (ctx : Context) (c : EventPtr) (elapsed : float)
    (err : option string) (w : World) (cf : FieldMap) :
  ContextEvent ctx = None ->
  events w !! c = Some cf ->
  run (BuildDBEvent_fn ctx c elapsed err) w =
  Returns tt
    (mkWorld (<[c := finish_fields elapsed err cf]> (events w))
             (uuidsDrawn w)
             (sendLog w ++ [(c, finish_fields elapsed err cf)])).
Proof.
  intros Hctx Hc. unfold BuildDBEvent_fn, finish_fields.
  rewrite run_bind, (run_rollup_no_parent _ _ _ _ Hctx).
  rewrite run_bind, (run_AddField _ _ _ _ _ Hc).
  rewrite run_bind.
  destruct err; [rewrite run_AddField_upd|cbn [run mret Prog_ret]];
    cbn; by rewrite lookup_insert_eq.
Qed.

(** The closure, when the context carries a parent event. *)
Lemma run_fn_parent (ctx : Context) (p c : EventPtr) (elapsed : float)
    (err : option string) (w : World) (pf cf : FieldMap) :
  ContextEvent ctx = Some p ->
  events w !! p = Some pf ->
  events w !! c = Some cf ->
  c <> p ->
  run (BuildDBEvent_fn ctx c elapsed err) w =
  Returns tt
    (mkWorld
       (<[c := finish_fields elapsed err cf]>
          (<[p := rollup_fields (map_index cf "meta.type") (map_index cf "db.call")
                                elapsed pf]> (events w)))
       (uuidsDrawn w)
       (sendLog w ++ [(c, finish_fields elapsed err cf)])).
Proof.
  intros Hctx Hp Hc Hne. unfold BuildDBEvent_fn, finish_fields.
  rewrite run_bind, (run_rollup _ _ _ _ _ _ _ Hctx Hp Hc).
  assert (Hc' : events (upd w p (rollup_fields (map_index cf "meta.type")
                  (map_index cf "db.call") elapsed pf)) !! c = Some cf)
    by (by rewrite events_upd_ne).
  rewrite run_bind, (run_AddField _ _ _ _ _ Hc').
  rewrite run_bind.
  destruct err; [rewrite run_AddField_upd|cbn [run mret Prog_ret]];
    cbn; by rewrite lookup_insert_eq.
Qed.

(** C3: a child span built while the context carries a parent event that
    has [trace.trace_id] and [trace.span_id] gets the parent's
    [trace.trace_id], gets the parent's [trace.span_id] as its
    [trace.parent_id], and gets as [trace.span_id] the rendering of the next
    identifier drawn from the generator, which this call consumes.  The
    child is a new event and the parent is left as it was. *)
Theorem child_links_to_parent (ctx : Context) (bld : Builder)
    (callName query : string) (args : option (list Value)) (w : World)
    (p : EventPtr) (pf : FieldMap) (tid sid : Value) :
  ContextEvent ctx = Some p ->
  events w !! p = Some pf ->
  pf !! "trace.trace_id" = Some tid ->
  pf !! "trace.span_id" = Some sid ->
  exists c fn w' cf,
    run (BuildDBEvent ctx bld callName query args) w = Returns (c, fn) w' /\
    events w !! c = None /\
    events w' !! c = Some cf /\
    cf !! "trace.trace_id" = Some tid /\
    cf !! "trace.parent_id" = Some sid /\
    cf !! "trace.span_id" =
      Some (VString (UUID_String (uuid_source (uuidsDrawn w)))) /\
    has_span_id cf /\
    uuidsDrawn w' = S (uuidsDrawn w) /\
    events w' !! p = Some pf.
Proof.
  intros Hctx Hp Htid Hsid.
  eexists _, _, _, _.
  split. { apply run_BuildDBEvent. intros q Hq. rewrite Hctx in Hq.
           injection Hq as <-. eauto. }
  pose proof (fresh_event_unallocated w) as Hc.
  split; [exact Hc|]. split; [apply lookup_insert_eq|].
  unfold parent_fields, child_draws. rewrite Hctx, Hp.
  assert (Hspan :
    BuildDBEvent_fields (Some pf) (uuid_source (uuidsDrawn w)) bld callName query args
      !! "trace.span_id" = Some (VString (UUID_String (uuid_source (uuidsDrawn w))))).
  { rewrite BuildDBEvent_fields_lookup by discriminate.
    cbn [addTraceID_fields]. apply lookup_insert_eq. }
  split; [|split; [|split; [exact Hspan|split; [|split]]]].
  - rewrite BuildDBEvent_fields_lookup by discriminate.
    cbn [addTraceID_fields]. rewrite Htid, Hsid. cbn [copy_field].
    rewrite !lookup_insert_ne by discriminate. apply lookup_insert_eq.
  - rewrite BuildDBEvent_fields_lookup by discriminate.
    cbn [addTraceID_fields]. rewrite Htid, Hsid. cbn [copy_field].
    rewrite !lookup_insert_ne by discriminate. apply lookup_insert_eq.
  - eexists. split; [exact Hspan|apply UUID_String_nonempty].
  - reflexivity.
  - cbn. rewrite lookup_insert_ne; [exact Hp|]. intros E. congruence.
Qed.

(** C5: with no event in context, [rollup] changes nothing, and the closure
    of a child span returns: no event but the child changes, the child gets
    [duration_ms] (and [error] when an error is passed), and the child is
    handed to [Send] with those fields. *)
Theorem finish_without_parent (ctx : Context) (bld : Builder)
    (callName query : string) (args : option (list Value)) (elapsed : float)
    (err : option string) (w : World) :
  ContextEvent ctx = None ->
  (forall ev dur w0, run (rollup ctx ev dur) w0 = Returns tt w0) /\
  exists c fn w1 w2 cf,
    run (BuildDBEvent ctx bld callName query args) w = Returns (c, fn) w1 /\
    run (fn elapsed err) w1 = Returns tt w2 /\
    events w !! c = None /\
    (forall e, e <> c -> events w2 !! e = events w !! e) /\
    events w2 !! c = Some cf /\
    cf !! "duration_ms" = Some (VFloat64 elapsed) /\
    (forall e, err = Some e -> cf !! "error" = Some (VError e)) /\
    sendLog w2 = sendLog w ++ [(c, cf)] /\
    uuidsDrawn w2 = uuidsDrawn w.
Proof.
  intros Hctx. split; [intros; by apply run_rollup_no_parent|].
  eexists _, _, _, _, _.
  split. { apply run_BuildDBEvent. intros q Hq. congruence. }
  split. { apply run_fn_no_parent; [exact Hctx|apply lookup_insert_eq]. }
  split; [apply fresh_event_unallocated|].
  split. { intros e He. cbn. by rewrite !lookup_insert_ne by congruence. }
  split. { cbn. apply lookup_insert_eq. }
  split. { unfold finish_fields. destruct err;
           rewrite ?lookup_insert_ne by discriminate; apply lookup_insert_eq. }
  split. { intros e ->. unfold finish_fields. apply lookup_insert_eq. }
  split; [reflexivity|]. unfold child_draws. by rewrite Hctx.
Qed.

(** One child span from start to finish under a parent: the parent's fields
    afterwards are those [rollup] computes from the builder's [meta.type],
    the caller's name and the duration. *)
Lemma run_child_span (ctx : Context) (bld : Builder) (callName query : string)
    (args : option (list Value)) (elapsed : float) (err : option string)
    (w : World) (p : EventPtr) (pf : FieldMap) :
  ContextEvent ctx = Some p ->
  events w !! p = Some pf ->
  exists w',
    run (child_span ctx bld callName query args elapsed err) w =
      Returns (fresh (dom (events w))) w' /\
    events w' !! p =
      Some (rollup_fields (map_index (builderFields bld) "meta.type")
                          (VString (db_call callName)) elapsed pf).
Proof.
  intros Hctx Hp. unfold child_span.
  pose proof (fresh_event_unallocated w) as Hc.
  assert (Hne : fresh (dom (events w)) <> p) by (intros E; congruence).
  rewrite run_bind, run_BuildDBEvent
    by (intros q Hq; rewrite Hctx in Hq; injection Hq as <-; eauto).
  cbn beta iota. rewrite run_bind.
  erewrite run_fn_parent; [|exact Hctx|cbn; by rewrite lookup_insert_ne|
                            cbn; apply lookup_insert_eq|exact Hne].
  eexists. split; [reflexivity|].
  cbn. rewrite lookup_insert_ne by exact Hne.
  rewrite lookup_insert_eq. f_equal. f_equal.
  - unfold map_index. by rewrite BuildDBEvent_fields_meta_type.
  - unfold map_index. by rewrite BuildDBEvent_fields_db_call.
Qed.

(** C2: under a parent whose rollup counters are not set, three child
    spans of type ["db"] whose callers are named [query], finished one after
    the other with durations 10, 20 and 30, leave in the parent
    [totals.db_count = 3], [totals.db_duration_ms = 60],
    [totals.db_query_count = 3] and [totals.db_query_duration_ms = 60]. *)
Theorem three_query_children_roll_up (ctx : Context) (bld : Builder)
    (name1 name2 name3 query1 query2 query3 : string)
    (args1 args2 args3 : option (list Value))
    (err1 err2 err3 : option string)
    (w : World) (p : EventPtr) (pf : FieldMap) :
  ContextEvent ctx = Some p ->
  events w !! p = Some pf ->
  pf !! "totals.db_count" = None ->
  pf !! "totals.db_duration_ms" = None ->
  pf !! "totals.db_query_count" = None ->
  pf !! "totals.db_query_duration_ms" = None ->
  builderFields bld !! "meta.type" = Some (VString "db") ->
  db_call name1 = "query" ->
  db_call name2 = "query" ->
  db_call name3 = "query" ->
  exists c3 w' pf',
    run (child_span ctx bld name1 query1 args1 10%float err1;;
         child_span ctx bld name2 query2 args2 20%float err2;;
         child_span ctx bld name3 query3 args3 30%float err3) w
      = Returns c3 w' /\
    events w' !! p = Some pf' /\
    pf' !! "totals.db_count" = Some (VInt 3) /\
    pf' !! "totals.db_duration_ms" = Some (VFloat64 60%float) /\
    pf' !! "totals.db_query_count" = Some (VInt 3) /\
    pf' !! "totals.db_query_duration_ms" = Some (VFloat64 60%float).
Proof.
  intros Hctx Hp K1 K2 K3 K4 Hmt N1 N2 N3.
  destruct (run_child_span ctx bld name1 query1 args1 10%float err1 w p pf Hctx Hp)
    as (w1 & R1 & P1).
  destruct (run_child_span ctx bld name2 query2 args2 20%float err2 w1 p _ Hctx P1)
    as (w2 & R2 & P2).
  destruct (run_child_span ctx bld name3 query3 args3 30%float err3 w2 p _ Hctx P2)
    as (w3 & R3 & P3).
  eexists _, w3, _.
  split. { rewrite run_bind, R1, run_bind, R2. exact R3. }
  split; [exact P3|].
  assert (Emt : map_index (builderFields bld) "meta.type" = VString "db")
    by (unfold map_index; by rewrite Hmt).
  rewrite Emt, N1, N2, N3.
  change "totals.db_count" with (totalMetaCountKey (VString "db")) in *.
  change "totals.db_duration_ms" with (totalMetaDurKey (VString "db")) in *.
  change "totals.db_query_count"
    with (totalCallCountKey (VString "db") (VString "query")) in *.
  change "totals.db_query_duration_ms"
    with (totalCallDurKey (VString "db") (VString "query")) in *.
  rewrite rollup_fields_MetaCount, rollup_fields_MetaDur,
          rollup_fields_CallCount, rollup_fields_CallDur.
  rewrite !prior_count_rollup_meta, !prior_duration_rollup_meta,
          !prior_count_rollup_call, !prior_duration_rollup_call.
  rewrite !prior_count_absent, !prior_duration_absent by congruence.
  repeat split.
Qed.

(** C4, as the code has it: the root span that [AddRequestProps] fills and
    a child span built while the context carries a parent event both carry a
    non-empty [trace.span_id]; [AddRequestProps] never sets
    [trace.parent_id]; a child whose parent has a [trace.span_id] gets it as
    [trace.parent_id]; and a child built with no event in context gets no
    trace field at all: its [trace.span_id], [trace.parent_id] and
    [trace.trace_id] are whatever the builder supplied, absent for a builder
    without them. *)
Theorem span_identity_by_route (req : http_Request) (ev : EventPtr)
    (w : World) (fs : FieldMap)
    (ctxP ctxN : Context) (p : EventPtr) (pf : FieldMap) (wP wN : World)
    (bld : Builder) (callName query : string) (args : option (list Value)) :
  events w !! ev = Some fs ->
  ContextEvent ctxP = Some p ->
  events wP !! p = Some pf ->
  ContextEvent ctxN = None ->
  (exists w' root,
     run (AddRequestProps req ev) w = Returns tt w' /\
     events w' !! ev = Some root /\
     has_span_id root /\
     root !! "trace.parent_id" = fs !! "trace.parent_id") /\
  (exists c fn w' cf,
     run (BuildDBEvent ctxP bld callName query args) wP = Returns (c, fn) w' /\
     events w' !! c = Some cf /\
     has_span_id cf /\
     (forall sid, pf !! "trace.span_id" = Some sid ->
                  cf !! "trace.parent_id" = Some sid)) /\
  (exists c fn w' cf,
     run (BuildDBEvent ctxN bld callName query args) wN = Returns (c, fn) w' /\
     events w' !! c = Some cf /\
     cf !! "trace.span_id" = builderFields bld !! "trace.span_id" /\
     cf !! "trace.parent_id" = builderFields bld !! "trace.parent_id" /\
     cf !! "trace.trace_id" = builderFields bld !! "trace.trace_id").
Proof.
  intros Hev HctxP Hp HctxN. split; [|split].
  - eexists _, _. split; [by apply run_AddRequestProps|].
    split; [apply lookup_insert_eq|]. split.
    + eexists. split; [apply AddRequestProps_fields_span_id|].
      unfold root_spanID. destruct (String.eqb _ _); apply UUID_String_nonempty.
    + apply AddRequestProps_fields_parent_id.
  - eexists _, _, _, _.
    split. { apply run_BuildDBEvent. intros q Hq. rewrite HctxP in Hq.
             injection Hq as <-. eauto. }
    split; [apply lookup_insert_eq|].
    unfold parent_fields. rewrite HctxP, Hp. split.
    + eexists. split; [|apply UUID_String_nonempty].
      rewrite BuildDBEvent_fields_lookup by discriminate.
      cbn [addTraceID_fields]. apply lookup_insert_eq.
    + intros sid Hsid. rewrite BuildDBEvent_fields_lookup by discriminate.
      cbn [addTraceID_fields]. rewrite Hsid. cbn [copy_field].
      rewrite lookup_insert_ne by discriminate. apply lookup_insert_eq.
  - eexists _, _, _, _.
    split. { apply run_BuildDBEvent. intros q Hq. congruence. }
    split; [apply lookup_insert_eq|].
    unfold parent_fields. rewrite HctxN.
    repeat split; by rewrite BuildDBEvent_fields_lookup by discriminate.
Qed.

(** ** Goroutines *)

(** A goroutine that is scheduled alone for long enough ends as its run
    does: the step semantics and the run agree. *)
Lemma interleave_alone (p : Prog unit) (w w' : World) :
  run p w = Returns tt w' ->
  exists n, interleave (replicate n 0) [p] w = Returns [Ret tt] w'.
Proof.
  revert w.
  induction p as [[]|bld k IH|ev key val k IH|ev k IH|[m] key k IH|ev k IH|k IH];
    intros w Hrun.
  - exists 0. cbn in *. congruence.
  - cbn [run] in Hrun. destruct (IH _ _ Hrun) as [n Hn]. by exists (S n).
  - cbn [run] in Hrun. destruct (events w !! ev) as [fs|] eqn:E; [|done].
    destruct (IH _ Hrun) as [n Hn]. exists (S n). cbn. by rewrite E.
  - cbn [run] in Hrun. destruct (events w !! ev) as [fs|] eqn:E; [|done].
    destruct (IH _ _ Hrun) as [n Hn]. exists (S n). cbn. by rewrite E.
  - cbn [run] in Hrun. destruct (events w !! m) as [fs|] eqn:E; [|done].
    destruct (IH _ _ Hrun) as [n Hn]. exists (S n). cbn. by rewrite E.
  - cbn [run] in Hrun. destruct (events w !! ev) as [fs|] eqn:E; [|done].
    destruct (IH _ Hrun) as [n Hn]. exists (S n). cbn. by rewrite E.
  - cbn [run] in Hrun. destruct (IH _ _ Hrun) as [n Hn]. by exists (S n).
Qed.

(* ================================================================== *)
(** * Further properties *)

(** ** The response writer *)

Lemma Status_without_WriteHeader (W : Type) (inner_WriteHeader : W -> Z -> W)
    (inner_Write : W -> list byte -> W) (calls : list WriterCall)
    (h : ResponseWriter W) :
  forallb (fun c => negb (is_WriteHeader c)) calls = true ->
  Status W (fold_left (call_ResponseWriter W inner_WriteHeader inner_Write) calls h)
  = Status W h.
Proof.
  revert h. induction calls as [|c calls IH]; intros h Hno; [reflexivity|].
  cbn in Hno. apply andb_true_iff in Hno as [Hc Hno].
  cbn [fold_left]. rewrite IH by exact Hno.
  destruct c; [discriminate Hc|reflexivity].
Qed.

(** X1: the wrapper is transparent and remembers the last status.  Whatever
    a handler calls, the wrapped writer receives exactly the same calls in
    the same order; [Status] is the code of the last [WriteHeader], and it is
    left as it was when the handler only writes (so an implicit 200 is not
    recorded). *)
Theorem ResponseWriter_forwards_and_records (W : Type)
    (inner_WriteHeader : W -> Z -> W) (inner_Write : W -> list byte -> W)
    (calls : list WriterCall) (h : ResponseWriter W) :
  wrapped W (fold_left (call_ResponseWriter W inner_WriteHeader inner_Write) calls h)
    = fold_left (call_wrapped W inner_WriteHeader inner_Write) calls (wrapped W h) /\
  (forallb (fun c => negb (is_WriteHeader c)) calls = true ->
   Status W (fold_left (call_ResponseWriter W inner_WriteHeader inner_Write) calls h)
     = Status W h) /\
  (forall before statusCode after,
     calls = before ++ DoWriteHeader statusCode :: after ->
     forallb (fun c => negb (is_WriteHeader c)) after = true ->
     Status W (fold_left (call_ResponseWriter W inner_WriteHeader inner_Write) calls h)
       = statusCode).
Proof.
  split; [|split].
  - revert h. induction calls as [|c calls IH]; intros h; [reflexivity|].
    cbn [fold_left]. rewrite IH. by destruct c.
  - apply Status_without_WriteHeader.
  - intros before statusCode after -> Hafter.
    rewrite fold_left_app. cbn [fold_left call_ResponseWriter].
    by rewrite Status_without_WriteHeader.
Qed.

(** ** Splitting strings *)

Lemma length_strings_Split (s : string) (sep : ascii) :
  length (strings_Split s sep) = S (strings_Count s sep).
Proof.
  induction s as [|c rest IH]; [reflexivity|].
  cbn [strings_Split strings_Count].
  destruct (Ascii.eqb c sep); cbn [length]; [by rewrite IH|].
  destruct (strings_Split rest sep); cbn [length] in *; [discriminate IH|exact IH].
Qed.

Lemma strings_Split_no_sep (s : string) (sep : ascii) :
  strings_Count s sep = 0 -> strings_Split s sep = [s].
Proof.
  induction s as [|c rest IH]; [reflexivity|].
  cbn [strings_Split strings_Count].
  destruct (Ascii.eqb c sep); [discriminate|].
  intros H. by rewrite IH.
Qed.

(** Joining the pieces with the separator gives the string back. *)
Lemma strings_Join_Split (s : string) (sep : ascii) :
  strings_Join (strings_Split s sep) (String sep EmptyString) = s.
Proof.
  induction s as [|c rest IH]; [reflexivity|].
  cbn [strings_Split].
  destruct (Ascii.eqb_spec c sep) as [->|Hne].
  - pose proof (strings_Split_nonempty rest sep) as Hnil.
    destruct (strings_Split rest sep) as [|p ps]; [done|].
    change (strings_Join (EmptyString :: p :: ps) (String sep EmptyString))
      with (String sep (strings_Join (p :: ps) (String sep EmptyString))).
    by rewrite IH.
  - destruct (strings_Split rest sep) as [|p ps] eqn:E.
    + by destruct (strings_Split_nonempty rest sep).
    + destruct ps as [|q qs].
      * cbn [strings_Join] in *. by rewrite IH.
      * change (strings_Join (String c p :: q :: qs) (String sep EmptyString))
          with (String c (strings_Join (p :: q :: qs) (String sep EmptyString))).
        by rewrite IH.
Qed.

(** No piece contains the separator. *)
Lemma strings_Split_pieces (s : string) (sep : ascii) :
  Forall (fun piece => strings_Count piece sep = 0) (strings_Split s sep).
Proof.
  induction s as [|c rest IH]; [by repeat constructor|].
  cbn [strings_Split].
  destruct (Ascii.eqb c sep) eqn:E; [by constructor|].
  destruct (strings_Split rest sep) as [|p ps].
  - repeat constructor. cbn. by rewrite E.
  - inversion IH as [|? ? Hp Hps]; subst. constructor; [|exact Hps].
    cbn. by rewrite E.
Qed.

Lemma strings_Count_append (s t : string) (sep : ascii) :
  strings_Count (s +:+ t) sep = strings_Count s sep + strings_Count t sep.
Proof.
  induction s as [|c s IH]; [reflexivity|].
  rewrite append_String. cbn [strings_Count]. rewrite IH. lia.
Qed.

(** X2: a segment of the AWS header is recorded exactly when it contains
    one [=]; it is then its key, [=], and its value, and neither the key nor
    the value contains an [=]. *)
Theorem well_formed_segment_one_equals (id : string) :
  (well_formed_segment id = true <-> strings_Count id "="%char = 1) /\
  (well_formed_segment id = true ->
   exists key value,
     strings_Split id "="%char = [key; value] /\
     id = key +:+ "=" +:+ value /\
     strings_Count key "="%char = 0 /\
     strings_Count value "="%char = 0).
Proof.
  assert (Hiff : well_formed_segment id = true <-> strings_Count id "="%char = 1).
  { unfold well_formed_segment. rewrite length_strings_Split.
    rewrite Nat.eqb_eq. lia. }
  split; [exact Hiff|].
  intros Hwf. unfold well_formed_segment in Hwf. apply Nat.eqb_eq in Hwf.
  pose proof (strings_Join_Split id "="%char) as Hjoin.
  pose proof (strings_Split_pieces id "="%char) as Hpieces.
  destruct (strings_Split id "="%char) as [|key [|value [|? ?]]]; try discriminate Hwf.
  exists key, value. split; [reflexivity|].
  split; [by rewrite <- Hjoin|].
  inversion Hpieces as [|? ? Hk Hrest]; subst.
  inversion Hrest as [|? ? Hv _]; subst. by split.
Qed.

(** ** The root span, further *)

(** A key that does not start with the AWS prefix is no AWS key. *)
Ltac not_an_aws_key :=
  let k := fresh "k" in
  let E := fresh "E" in
  intros k E;
  apply (f_equal (String.substring 0 28)) in E;
  vm_compute in E; discriminate E.

Lemma AddRequestProps_fields_request (req : http_Request) (n : nat)
    (fs : FieldMap) (key : string) :
  (forall k, key <> "request.header.aws_trace_id." +:+ k) ->
  key <> "request.header.request_id" ->
  key <> "trace.trace_id" ->
  key <> "trace.span_id" ->
  AddRequestProps_fields req n fs !! key = request_fields req fs !! key.
Proof.
  intros Haws Hrid Htid Hsid. unfold AddRequestProps_fields.
  rewrite !lookup_insert_ne by congruence.
  by apply parseTraceHeader_fields_other.
Qed.

(** X3: whatever the headers hold, the root span carries the eight request
    details with the request's values: no AWS segment and no [Request-Id]
    can overwrite them, because every AWS key starts with
    [request.header.aws_trace_id.]. *)
Theorem AddRequestProps_records_request (req : http_Request) (ev : EventPtr)
    (w : World) (fs : FieldMap) :
  events w !! ev = Some fs ->
  exists w' fs',
    run (AddRequestProps req ev) w = Returns tt w' /\
    events w' !! ev = Some fs' /\
    fs' !! "meta.type" = Some (VString "http request") /\
    fs' !! "request.method" = Some (VString (Method req)) /\
    fs' !! "request.path" = Some (VString (Path (URL req))) /\
    fs' !! "request.host" = Some (VString (Host (URL req))) /\
    fs' !! "request.proto" = Some (VString (Proto req)) /\
    fs' !! "request.content_length" = Some (VInt64 (ContentLength req)) /\
    fs' !! "request.remote_addr" = Some (VString (RemoteAddr req)) /\
    fs' !! "request.header.user_agent" =
      Some (VString (Header_Get (Header req) "User-Agent")).
Proof.
  intros Hev. eexists _, _.
  split; [by apply run_AddRequestProps|].
  split; [apply lookup_insert_eq|].
  repeat split;
    (rewrite AddRequestProps_fields_request;
       [|not_an_aws_key|discriminate|discriminate|discriminate]);
    unfold request_fields;
    rewrite ?lookup_insert_ne by discriminate; apply lookup_insert_eq.
Qed.

(** X4: [AddRequestProps] touches one event and only the keys it is meant
    to set.  A field of that event under any other key that is not an AWS
    key is as before; every other event, and the send log, are as before;
    and a [Request-Id] that is empty or missing sets no
    [request.header.request_id]. *)
Theorem AddRequestProps_frame (req : http_Request) (ev : EventPtr)
    (w : World) (fs : FieldMap) :
  events w !! ev = Some fs ->
  exists w' fs',
    run (AddRequestProps req ev) w = Returns tt w' /\
    events w' !! ev = Some fs' /\
    (forall key,
       key ∉ AddRequestProps_keys ->
       (forall k, key <> "request.header.aws_trace_id." +:+ k) ->
       fs' !! key = fs !! key) /\
    (Header_Get (Header req) "Request-Id" = "" ->
     fs' !! "request.header.request_id" = fs !! "request.header.request_id") /\
    (forall e, e <> ev -> events w' !! e = events w !! e) /\
    sendLog w' = sendLog w.
Proof.
  intros Hev. eexists _, _.
  split; [by apply run_AddRequestProps|].
  split; [apply lookup_insert_eq|].
  split; [|split; [|split; [|reflexivity]]].
  - intros key Hkey Haws. unfold AddRequestProps_keys in Hkey.
    rewrite !not_elem_of_cons in Hkey.
    destruct Hkey as (K1 & K2 & K3 & K4 & K5 & K6 & K7 & K8 & K9 & K10 & K11 & _).
    rewrite AddRequestProps_fields_request by assumption.
    unfold request_fields. by rewrite !lookup_insert_ne by congruence.
  - intros Hrid. unfold AddRequestProps_fields.
    rewrite !lookup_insert_ne by discriminate.
    unfold parseTraceHeader_fields. rewrite Hrid. cbn [String.eqb negb].
    assert (Hreq : request_fields req fs !! "request.header.request_id"
                   = fs !! "request.header.request_id")
      by (unfold request_fields; by rewrite !lookup_insert_ne by discriminate).
    destruct (negb (String.eqb (Header_Get (Header req) "X-Amzn-Trace-Id") ""));
      [|exact Hreq].
    rewrite range_fields_other; [exact Hreq|not_an_aws_key].
  - intros e He. cbn. by rewrite lookup_insert_ne by congruence.
Qed.

(** The loop over the segments ends with ["Root"] when a segment is
    recorded under [Root], and with the [traceID] it started from when none
    is. *)
Lemma range_traceID_spec (ids : list string) (traceID : string) :
  range_traceID ids traceID =
  if existsb is_root_segment ids then "Root" else traceID.
Proof.
  revert traceID. induction ids as [|id rest IH]; intros traceID; [reflexivity|].
  cbn [range_traceID existsb]. unfold is_root_segment at 1.
  destruct (well_formed_segment id); cbn [andb orb]; [|apply IH].
  destruct (String.eqb_spec (at_index (strings_Split id "=") 0) "Root") as [E|_];
    cbn [orb]; [|apply IH].
  rewrite E, IH. by destruct (existsb is_root_segment rest).
Qed.

Lemma traceID_candidate_spec (req : http_Request) :
  traceID_candidate req =
  if negb (String.eqb (Header_Get (Header req) "Request-Id") "")
  then Header_Get (Header req) "Request-Id"
  else if has_root_segment (Header_Get (Header req) "X-Amzn-Trace-Id")
       then "Root" else "".
Proof.
  unfold traceID_candidate, has_root_segment.
  destruct (negb (String.eqb (Header_Get (Header req) "Request-Id") ""));
    [reflexivity|].
  destruct (String.eqb_spec (Header_Get (Header req) "X-Amzn-Trace-Id") "") as [->|_];
    cbn [negb]; [reflexivity|].
  apply range_traceID_spec.
Qed.

(** X5: how the root span gets its trace ID, for every request.  A
    non-empty [Request-Id] wins; otherwise an AWS header with a segment
    recorded under [Root] gives the literal ["Root"]; otherwise the ID is the
    rendering of the next identifier drawn.  The span ID is the rendering of
    the identifier drawn after that, and neither ID is ever empty. *)
Theorem root_trace_id_resolution (req : http_Request) (ev : EventPtr)
    (w : World) (fs : FieldMap) :
  events w !! ev = Some fs ->
  exists w' fs' traceID spanID,
    run (AddRequestProps req ev) w = Returns tt w' /\
    events w' !! ev = Some fs' /\
    fs' !! "trace.trace_id" = Some (VString traceID) /\
    fs' !! "trace.span_id" = Some (VString spanID) /\
    traceID <> "" /\ spanID <> "" /\
    (Header_Get (Header req) "Request-Id" <> "" ->
     traceID = Header_Get (Header req) "Request-Id" /\
     spanID = UUID_String (uuid_source (uuidsDrawn w)) /\
     uuidsDrawn w' = 1 + uuidsDrawn w) /\
    (Header_Get (Header req) "Request-Id" = "" ->
     has_root_segment (Header_Get (Header req) "X-Amzn-Trace-Id") = true ->
     traceID = "Root" /\
     spanID = UUID_String (uuid_source (uuidsDrawn w)) /\
     uuidsDrawn w' = 1 + uuidsDrawn w) /\
    (Header_Get (Header req) "Request-Id" = "" ->
     has_root_segment (Header_Get (Header req) "X-Amzn-Trace-Id") = false ->
     traceID = UUID_String (uuid_source (uuidsDrawn w)) /\
     spanID = UUID_String (uuid_source (S (uuidsDrawn w))) /\
     uuidsDrawn w' = 2 + uuidsDrawn w).
Proof.
  intros Hev. eexists _, _, _, _.
  split; [by apply run_AddRequestProps|].
  split; [apply lookup_insert_eq|].
  split; [apply AddRequestProps_fields_trace_id|].
  split; [apply AddRequestProps_fields_span_id|].
  unfold root_traceID, root_spanID, root_draws. cbn [uuidsDrawn].
  rewrite traceID_candidate_spec.
  destruct (String.eqb_spec (Header_Get (Header req) "Request-Id") "") as [Hrid|Hrid];
    cbn [negb].
  - destruct (has_root_segment _); cbn [String.eqb Ascii.eqb Bool.eqb];
      (split; [try discriminate; apply UUID_String_nonempty|]);
      (split; [apply UUID_String_nonempty|]);
      repeat split; try done.
  - destruct (String.eqb_spec (Header_Get (Header req) "Request-Id") ""); [done|].
    split; [done|]. split; [apply UUID_String_nonempty|].
    repeat split; done.
Qed.

Lemma range_fields_app (a b : list string) (fs : FieldMap) :
  range_fields (a ++ b) fs = range_fields b (range_fields a fs).
Proof.
  revert fs. induction a as [|id a IH]; intros fs; [reflexivity|].
  cbn [app range_fields]. by destruct (well_formed_segment id).
Qed.

(** A key no later segment is recorded under survives the rest of the
    loop. *)
Lemma range_fields_keep (ids : list string) (fs : FieldMap) (key : string) :
  (forall j, j ∈ ids -> well_formed_segment j = true -> aws_key j <> key) ->
  range_fields ids fs !! key = fs !! key.
Proof.
  revert fs. induction ids as [|id rest IH]; intros fs Hlater; [reflexivity|].
  cbn [range_fields].
  assert (Hrest : forall j, j ∈ rest -> well_formed_segment j = true -> aws_key j <> key)
    by (intros j Hj; apply Hlater; by apply elem_of_cons; right).
  destruct (well_formed_segment id) eqn:Hwf; [|by apply IH].
  rewrite IH by exact Hrest. apply lookup_insert_ne.
  apply (Hlater id); [by apply elem_of_cons; left|exact Hwf].
Qed.

(** X6: a well-formed segment [key=value] of the AWS header is recorded as
    [request.header.aws_trace_id.key = value] on the root span, provided no
    later well-formed segment has the same key (the last one wins), and
    whether or not a [Request-Id] is present. *)
Theorem aws_segment_recorded (req : http_Request) (ev : EventPtr)
    (w : World) (fs : FieldMap) (before after : list string) (id : string) :
  events w !! ev = Some fs ->
  strings_Split (Header_Get (Header req) "X-Amzn-Trace-Id") ";"%char
    = before ++ id :: after ->
  well_formed_segment id = true ->
  (forall j, j ∈ after -> well_formed_segment j = true -> aws_key j <> aws_key id) ->
  exists w' fs',
    run (AddRequestProps req ev) w = Returns tt w' /\
    events w' !! ev = Some fs' /\
    fs' !! ("request.header.aws_trace_id." +:+ at_index (strings_Split id "="%char) 0)
      = Some (VString (at_index (strings_Split id "="%char) 1)).
Proof.
  intros Hev Hsplit Hwf Hlast. eexists _, _.
  split; [by apply run_AddRequestProps|].
  split; [apply lookup_insert_eq|].
  fold (aws_key id). unfold AddRequestProps_fields.
  assert (Hk : forall s, s <> aws_key id ->
                 forall (v : Value) (m : FieldMap), <[s := v]> m !! aws_key id = m !! aws_key id)
    by (intros s Hs v m; by apply lookup_insert_ne).
  rewrite !Hk by (unfold aws_key; intros E; symmetry in E; revert E;
                  generalize (at_index (strings_Split id "=") 0); not_an_aws_key).
  unfold parseTraceHeader_fields.
  assert (Haws : negb (String.eqb (Header_Get (Header req) "X-Amzn-Trace-Id") "") = true).
  { destruct (String.eqb_spec (Header_Get (Header req) "X-Amzn-Trace-Id") "") as [E|]; [|done].
    rewrite E in Hsplit. cbn in Hsplit.
    destruct before as [|b [|? ?]]; try discriminate Hsplit.
    injection Hsplit as <- _. discriminate Hwf. }
  rewrite Haws, Hsplit.
  assert (Hrange : range_fields (before ++ id :: after) (request_fields req fs) !! aws_key id
                   = Some (VString (at_index (strings_Split id "=") 1))).
  { rewrite range_fields_app. cbn [range_fields]. rewrite Hwf.
    rewrite range_fields_keep by exact Hlast. apply lookup_insert_eq. }
  destruct (negb (String.eqb (Header_Get (Header req) "Request-Id") ""));
    [rewrite Hk|]; try exact Hrange.
  unfold aws_key. intros E. symmetry in E. revert E.
  generalize (at_index (strings_Split id "=") 0). not_an_aws_key.
Qed.

(** ** Child spans, further *)

Lemma append_empty_r (s : string) : s +:+ "" = s.
Proof. induction s as [|c s IH]; [reflexivity|]. by rewrite append_String, IH. Qed.

Lemma append_assoc (s t u : string) : (s +:+ t) +:+ u = s +:+ (t +:+ u).
Proof. induction s as [|c s IH]; [reflexivity|]. by rewrite !append_String, IH. Qed.

(** The joined pieces end in the last piece, and what precedes it is empty
    or ends in the separator. *)
Lemma strings_Join_last (pieces : list string) (sep : string) :
  pieces <> [] ->
  exists prefix,
    strings_Join pieces sep = prefix +:+ at_index pieces (length pieces - 1) /\
    (prefix = "" \/ exists p, prefix = p +:+ sep).
Proof.
  induction pieces as [|e rest IH]; [done|]. intros _.
  destruct rest as [|e' rest'].
  - exists "". split; [reflexivity|by left].
  - destruct IH as (prefix & Hjoin & Hprefix); [done|].
    exists (e +:+ sep +:+ prefix). split.
    + change (strings_Join (e :: e' :: rest') sep)
        with (e +:+ sep +:+ strings_Join (e' :: rest') sep).
      rewrite Hjoin, !append_assoc. cbn [length].
      rewrite !Nat.sub_succ, !Nat.sub_0_r. reflexivity.
    + right. destruct Hprefix as [->|[p ->]].
      * exists e. by rewrite append_empty_r.
      * exists (e +:+ sep +:+ p). by rewrite !append_assoc.
Qed.

Lemma Forall_at_index (P : string -> Prop) (pieces : list string) (i : nat) :
  Forall P pieces -> i < length pieces -> P (at_index pieces i).
Proof.
  intros HP. revert i. induction HP as [|x l Hx _ IH]; intros i Hi; cbn in Hi; [lia|].
  destruct i; [exact Hx|]. apply IH. lia.
Qed.

(** X7: the [db.call] of a child span is the caller's name from after its
    last [.] on: it contains no [.], the caller's name ends in it, what
    precedes it is empty or ends in [.], and a name without [.] (the empty
    name too) is taken whole. *)
Theorem db_call_is_last_chunk (ctx : Context) (bld : Builder)
    (callName query : string) (args : option (list Value)) (w : World) :
  (forall p, ContextEvent ctx = Some p -> is_Some (events w !! p)) ->
  exists c fn w' cf,
    run (BuildDBEvent ctx bld callName query args) w = Returns (c, fn) w' /\
    events w' !! c = Some cf /\
    cf !! "db.call" = Some (VString (db_call callName)) /\
    strings_Count (db_call callName) "."%char = 0 /\
    (exists prefix,
       callName = prefix +:+ db_call callName /\
       (prefix = "" \/ exists p, prefix = p +:+ ".")) /\
    (strings_Count callName "."%char = 0 -> db_call callName = callName).
Proof.
  intros Hctx. eexists _, _, _, _.
  split; [by apply run_BuildDBEvent|].
  split; [apply lookup_insert_eq|].
  split; [apply BuildDBEvent_fields_db_call|].
  pose proof (strings_Split_nonempty callName "."%char) as Hne.
  split; [|split].
  - unfold db_call. apply Forall_at_index; [apply strings_Split_pieces|].
    destruct (strings_Split callName "."); [done|cbn; lia].
  - destruct (strings_Join_last _ "." Hne) as (prefix & Hjoin & Hprefix).
    rewrite strings_Join_Split in Hjoin. by exists prefix.
  - intros Hno. unfold db_call. by rewrite strings_Split_no_sep.
Qed.

(** X8: [BuildDBEvent] allocates one event and touches nothing else.  The
    child is at an address no event had; every other event and the send log
    are as before; the child inherits every builder field except the trace
    identity and the [db.] keys; [db.query] is set only for a non-empty
    query and [db.query_args] only for non-nil arguments. *)
Theorem BuildDBEvent_frame (ctx : Context) (bld : Builder)
    (callName query : string) (args : option (list Value)) (w : World) :
  (forall p, ContextEvent ctx = Some p -> is_Some (events w !! p)) ->
  exists c fn w' cf,
    run (BuildDBEvent ctx bld callName query args) w = Returns (c, fn) w' /\
    events w !! c = None /\
    events w' !! c = Some cf /\
    (forall e, e <> c -> events w' !! e = events w !! e) /\
    sendLog w' = sendLog w /\
    (forall key,
       key ∉ ["trace.trace_id"; "trace.parent_id"; "trace.span_id";
              "db.call"; "db.query"; "db.query_args"] ->
       cf !! key = builderFields bld !! key) /\
    cf !! "db.query" =
      (if String.eqb query "" then builderFields bld !! "db.query"
       else Some (VString query)) /\
    cf !! "db.query_args" =
      (match args with
       | Some a => Some (VSlice a)
       | None => builderFields bld !! "db.query_args"
       end).
Proof.
  intros Hctx. eexists _, _, _, _.
  split; [by apply run_BuildDBEvent|].
  split; [apply fresh_event_unallocated|].
  split; [apply lookup_insert_eq|].
  split. { intros e He. cbn. by rewrite lookup_insert_ne by congruence. }
  split; [reflexivity|].
  split; [|split].
  - intros key Hkey. rewrite !not_elem_of_cons in Hkey.
    destruct Hkey as (K1 & K2 & K3 & K4 & K5 & K6 & _).
    rewrite BuildDBEvent_fields_lookup by assumption.
    by apply addTraceID_fields_lookup.
  - unfold BuildDBEvent_fields.
    destruct args; destruct (String.eqb query ""); cbn [negb];
      rewrite ?lookup_insert_ne by discriminate;
      try apply lookup_insert_eq;
      by rewrite addTraceID_fields_lookup by discriminate.
  - unfold BuildDBEvent_fields.
    destruct args; destruct (String.eqb query ""); cbn [negb];
      try apply lookup_insert_eq;
      rewrite ?lookup_insert_ne by discriminate;
      by rewrite addTraceID_fields_lookup by discriminate.
Qed.

(** X9: with a parent event in context, the child copies each of the two
    identifiers only when the parent has it.  Its [trace.trace_id] is the
    parent's, or the builder's when the parent has none; its
    [trace.parent_id] is the parent's [trace.span_id], or the builder's
    [trace.parent_id] when the parent has none; in every case it gets a new
    [trace.span_id], and exactly one identifier is drawn. *)
Theorem child_identity_from_parent (ctx : Context) (bld : Builder)
    (callName query : string) (args : option (list Value)) (w : World)
    (p : EventPtr) (pf : FieldMap) :
  ContextEvent ctx = Some p ->
  events w !! p = Some pf ->
  exists c fn w' cf,
    run (BuildDBEvent ctx bld callName query args) w = Returns (c, fn) w' /\
    events w' !! c = Some cf /\
    cf !! "trace.trace_id" =
      (match pf !! "trace.trace_id" with
       | Some id => Some id
       | None => builderFields bld !! "trace.trace_id"
       end) /\
    cf !! "trace.parent_id" =
      (match pf !! "trace.span_id" with
       | Some id => Some id
       | None => builderFields bld !! "trace.parent_id"
       end) /\
    cf !! "trace.span_id" =
      Some (VString (UUID_String (uuid_source (uuidsDrawn w)))) /\
    uuidsDrawn w' = 1 + uuidsDrawn w.
Proof.
  intros Hctx Hp. eexists _, _, _, _.
  split. { apply run_BuildDBEvent. intros q Hq. rewrite Hctx in Hq.
           injection Hq as <-. eauto. }
  split; [apply lookup_insert_eq|].
  unfold parent_fields, child_draws. rewrite Hctx, Hp.
  split; [|split; [|split; [|reflexivity]]];
    rewrite BuildDBEvent_fields_lookup by discriminate;
    cbn [addTraceID_fields]; unfold copy_field;
    destruct (pf !! "trace.trace_id"), (pf !! "trace.span_id");
    rewrite ?lookup_insert_ne by discriminate;
    try apply lookup_insert_eq; reflexivity.
Qed.

(** ** Finishing child spans, further *)

(** Every key [rollup] writes begins with [totals.]. *)
Lemma rollup_fields_not_totals (metaType dbCall : Value) (dur : float)
    (pf : FieldMap) (key : string) :
  (forall rest, key <> "totals." +:+ rest) ->
  rollup_fields metaType dbCall dur pf !! key = pf !! key.
Proof.
  intros Hkey.
  apply rollup_fields_other; intros E; exact (Hkey _ E).
Qed.

Lemma finish_fields_lookup (elapsed : float) (err : option string)
    (cf : FieldMap) (key : string) :
  key <> "duration_ms" -> key <> "error" ->
  finish_fields elapsed err cf !! key = cf !! key.
Proof.
  intros H1 H2. unfold finish_fields.
  destruct err; by rewrite !lookup_insert_ne by congruence.
Qed.

(** One child span from start to finish under a parent, in full. *)
Lemma run_child_span_world (ctx : Context) (bld : Builder) (callName query : string)
    (args : option (list Value)) (elapsed : float) (err : option string)
    (w : World) (p : EventPtr) (pf : FieldMap) :
  ContextEvent ctx = Some p ->
  events w !! p = Some pf ->
  run (child_span ctx bld callName query args elapsed err) w =
  Returns (fresh (dom (events w)))
    (mkWorld
       (<[fresh (dom (events w)) :=
            finish_fields elapsed err
              (BuildDBEvent_fields (Some pf) (uuid_source (uuidsDrawn w))
                                   bld callName query args)]>
          (<[p := rollup_fields (map_index (builderFields bld) "meta.type")
                                (VString (db_call callName)) elapsed pf]>
             (<[fresh (dom (events w)) :=
                  BuildDBEvent_fields (Some pf) (uuid_source (uuidsDrawn w))
                                      bld callName query args]> (events w))))
       (S (uuidsDrawn w))
       (sendLog w ++
        [(fresh (dom (events w)),
          finish_fields elapsed err
            (BuildDBEvent_fields (Some pf) (uuid_source (uuidsDrawn w))
                                 bld callName query args))])).
Proof.
  intros Hctx Hp. unfold child_span.
  pose proof (fresh_event_unallocated w) as Hc.
  assert (Hne : fresh (dom (events w)) <> p) by (intros E; congruence).
  rewrite run_bind, run_BuildDBEvent
    by (intros q Hq; rewrite Hctx in Hq; injection Hq as <-; eauto).
  cbn beta iota. rewrite run_bind.
  erewrite run_fn_parent; [|exact Hctx|cbn; by rewrite lookup_insert_ne|
                            cbn; apply lookup_insert_eq|exact Hne].
  unfold parent_fields, child_draws. rewrite Hctx, Hp.
  unfold map_index. rewrite BuildDBEvent_fields_meta_type, BuildDBEvent_fields_db_call.
  reflexivity.
Qed.

(** X10: finishing a child under a parent.  The closure returns; exactly
    one event is handed to [Send], the child, with its [duration_ms] (and
    [error]) already set; the parent is not sent, and of its fields only
    keys that begin with [totals.] can change; every other event is as
    before. *)
Theorem finish_with_parent (ctx : Context) (bld : Builder)
    (callName query : string) (args : option (list Value)) (elapsed : float)
    (err : option string) (w : World) (p : EventPtr) (pf : FieldMap) :
  ContextEvent ctx = Some p ->
  events w !! p = Some pf ->
  exists c w' cf pf',
    run (child_span ctx bld callName query args elapsed err) w = Returns c w' /\
    c <> p /\
    events w' !! c = Some cf /\
    sendLog w' = sendLog w ++ [(c, cf)] /\
    cf !! "duration_ms" = Some (VFloat64 elapsed) /\
    (forall e, err = Some e -> cf !! "error" = Some (VError e)) /\
    (err = None -> cf !! "error" = builderFields bld !! "error") /\
    events w' !! p = Some pf' /\
    (forall key, (forall rest, key <> "totals." +:+ rest) -> pf' !! key = pf !! key) /\
    (forall e, e <> c -> e <> p -> events w' !! e = events w !! e).
Proof.
  intros Hctx Hp.
  pose proof (fresh_event_unallocated w) as Hc.
  assert (Hne : fresh (dom (events w)) <> p) by (intros E; congruence).
  eexists _, _, _, _.
  split; [by apply run_child_span_world|].
  split; [exact Hne|].
  split; [apply lookup_insert_eq|].
  split; [reflexivity|].
  split. { unfold finish_fields. destruct err;
           rewrite ?lookup_insert_ne by discriminate; apply lookup_insert_eq. }
  split. { intros e ->. apply lookup_insert_eq. }
  split. { intros ->. cbn [finish_fields].
           rewrite lookup_insert_ne by discriminate.
           rewrite BuildDBEvent_fields_lookup by discriminate.
           by rewrite addTraceID_fields_lookup by discriminate. }
  split. { cbn. rewrite lookup_insert_ne by exact Hne. apply lookup_insert_eq. }
  split; [intros key; apply rollup_fields_not_totals|].
  intros e He1 He2. cbn. by rewrite !lookup_insert_ne by congruence.
Qed.

(** X11: the closure does not guard against a second call.  Called twice,
    it hands the child to [Send] twice, the second time with the second
    duration, and it rolls the child up twice: the parent's count for the
    type goes up by two and its duration by both durations. *)
Theorem finish_twice_counts_twice (ctx : Context) (bld : Builder)
    (callName query : string) (args : option (list Value))
    (elapsed1 elapsed2 : float) (err : option string)
    (w : World) (p : EventPtr) (pf : FieldMap) :
  ContextEvent ctx = Some p ->
  events w !! p = Some pf ->
  exists c w' cf1 cf2 pf',
    run (child_span_finished_twice ctx bld callName query args elapsed1 elapsed2 err) w
      = Returns c w' /\
    sendLog w' = sendLog w ++ [(c, cf1); (c, cf2)] /\
    cf1 !! "duration_ms" = Some (VFloat64 elapsed1) /\
    cf2 !! "duration_ms" = Some (VFloat64 elapsed2) /\
    events w' !! c = Some cf2 /\
    events w' !! p = Some pf' /\
    pf' !! totalMetaCountKey (map_index (builderFields bld) "meta.type") =
      Some (VInt (int_add (int_add
        (prior_count pf (totalMetaCountKey (map_index (builderFields bld) "meta.type")))
        1) 1)) /\
    pf' !! totalMetaDurKey (map_index (builderFields bld) "meta.type") =
      Some (VFloat64 (PrimFloat.add (PrimFloat.add
        (prior_duration pf (totalMetaDurKey (map_index (builderFields bld) "meta.type")))
        elapsed1) elapsed2)).
Proof.
  intros Hctx Hp. unfold child_span_finished_twice.
  pose proof (fresh_event_unallocated w) as Hc.
  set (c := fresh (dom (events w))) in *.
  assert (Hne : c <> p) by (intros E; congruence).
  rewrite run_bind, run_BuildDBEvent
    by (intros q Hq; rewrite Hctx in Hq; injection Hq as <-; eauto).
  fold c. cbn beta iota. unfold parent_fields, child_draws. rewrite Hctx, Hp.
  set (cf0 := BuildDBEvent_fields (Some pf) (uuid_source (uuidsDrawn w))
                                  bld callName query args).
  assert (Hmt : forall e x, map_index (finish_fields e x cf0) "meta.type"
                            = map_index (builderFields bld) "meta.type").
  { intros e x. unfold map_index.
    rewrite finish_fields_lookup by discriminate.
    unfold cf0. by rewrite BuildDBEvent_fields_meta_type. }
  assert (Hmt0 : map_index cf0 "meta.type" = map_index (builderFields bld) "meta.type").
  { unfold map_index, cf0. by rewrite BuildDBEvent_fields_meta_type. }
  rewrite run_bind.
  erewrite run_fn_parent; [|exact Hctx|cbn; by rewrite lookup_insert_ne|
                            cbn; apply lookup_insert_eq|exact Hne].
  rewrite run_bind.
  erewrite run_fn_parent; [|exact Hctx
                           |cbn; rewrite lookup_insert_ne by exact Hne;
                            apply lookup_insert_eq
                           |cbn; apply lookup_insert_eq|exact Hne].
  cbn [run mret Prog_ret].
  eexists _, _, _, _, _.
  split; [reflexivity|].
  split. { cbn [sendLog]. rewrite <- app_assoc. reflexivity. }
  split. { unfold finish_fields. destruct err;
           rewrite ?lookup_insert_ne by discriminate; apply lookup_insert_eq. }
  split. { unfold finish_fields. destruct err;
           rewrite ?lookup_insert_ne by discriminate; apply lookup_insert_eq. }
  split; [apply lookup_insert_eq|].
  split. { cbn. rewrite lookup_insert_ne by exact Hne. apply lookup_insert_eq. }
  rewrite Hmt, Hmt0.
  split.
  - by rewrite rollup_fields_MetaCount, prior_count_rollup_meta.
  - by rewrite rollup_fields_MetaDur, prior_duration_rollup_meta.
Qed.

(** ** Rolling up, further *)

(** Within the range of [int], adding one is adding one. *)
Lemma int_add_1_in_range (n : Z) :
  (- 2 ^ 63 <= n)%Z -> (n + 1 < 2 ^ 63)%Z -> int_add n 1 = (n + 1)%Z.
Proof.
  intros Hlo Hhi. unfold int_add, int_wrap.
  rewrite Z.mod_small by lia. lia.
Qed.

(** At the top of the range it wraps around. *)
Lemma int_add_1_overflow : int_add (2 ^ 63 - 1) 1 = (- 2 ^ 63)%Z.
Proof. reflexivity. Qed.

Lemma run_child_spans (ctx : Context) (bld : Builder) (callName : string)
    (children : list (string * option (list Value) * float * option string))
    (w : World) (p : EventPtr) (pf : FieldMap) :
  ContextEvent ctx = Some p ->
  events w !! p = Some pf ->
  exists w' sent,
    run (child_spans ctx bld callName children) w = Returns tt w' /\
    events w' !! p =
      Some (rollups (map_index (builderFields bld) "meta.type")
                    (VString (db_call callName)) (durations_of children) pf) /\
    sendLog w' = sendLog w ++ sent /\
    Forall2 sent_for sent children /\
    Forall (fun entry => fst entry <> p /\
                         events w !! fst entry = None /\
                         events w' !! fst entry = Some (snd entry)) sent /\
    NoDup (List.map fst sent) /\
    (forall e, e <> p -> is_Some (events w !! e) -> events w' !! e = events w !! e).
Proof.
  intros Hctx. revert w pf.
  induction children as [|[[[query args] elapsed] err] rest IH]; intros w pf Hp.
  - exists w, []. cbn [child_spans run mret Prog_ret durations_of List.map rollups fold_left].
    split; [reflexivity|]. split; [exact Hp|].
    split; [by rewrite app_nil_r|].
    split; [constructor|]. split; [constructor|]. split; [constructor|]. done.
  - cbn [child_spans]. rewrite run_bind.
    rewrite (run_child_span_world _ _ _ _ _ _ _ _ _ _ Hctx Hp).
    pose proof (fresh_event_unallocated w) as Hc.
    set (c := fresh (dom (events w))) in *.
    assert (Hne : c <> p) by (intros E; congruence).
    set (cf0 := BuildDBEvent_fields (Some pf) (uuid_source (uuidsDrawn w))
                                    bld callName query args).
    set (cf := finish_fields elapsed err cf0).
    set (pf1 := rollup_fields (map_index (builderFields bld) "meta.type")
                              (VString (db_call callName)) elapsed pf).
    set (w1 := mkWorld (<[c := cf]> (<[p := pf1]> (<[c := cf0]> (events w))))
                       (S (uuidsDrawn w)) (sendLog w ++ [(c, cf)])).
    assert (Hp1 : events w1 !! p = Some pf1)
      by (cbn [events w1]; rewrite lookup_insert_ne by exact Hne;
          apply lookup_insert_eq).
    assert (Hc1 : events w1 !! c = Some cf) by apply lookup_insert_eq.
    assert (Hold : forall e, e <> p -> e <> c -> events w1 !! e = events w !! e)
      by (intros e He1 He2; cbn [events w1];
          by rewrite !lookup_insert_ne by congruence).
    destruct (IH w1 pf1 Hp1)
      as (w' & sent & Hrun & Hp' & Hlog & Hfor & Hall & Hnd & Hframe).
    exists w', ((c, cf) :: sent).
    split; [exact Hrun|]. split; [exact Hp'|].
    split. { rewrite Hlog. cbn [sendLog w1]. by rewrite <- app_assoc. }
    split.
    { constructor; [|exact Hfor]. split; cbn [fst snd].
      - unfold cf, finish_fields. destruct err;
          rewrite ?lookup_insert_ne by discriminate; apply lookup_insert_eq.
      - intros e ->. apply lookup_insert_eq. }
    split.
    { constructor.
      - cbn [fst snd]. split; [exact Hne|]. split; [exact Hc|].
        rewrite Hframe; [exact Hc1|exact Hne|by rewrite Hc1].
      - eapply Forall_impl; [exact Hall|].
        intros [e fs] (He1 & He2 & He3). cbn [fst snd] in *.
        split; [exact He1|]. split; [|exact He3].
        assert (e <> c) by (intros ->; congruence).
        by rewrite <- Hold. }
    split.
    { cbn [List.map fst]. apply NoDup_cons. split; [|exact Hnd].
      intros Hin. apply list_elem_of_In, in_map_iff in Hin as ([e fs] & He & Hin).
      cbn [fst] in He. subst e.
      rewrite Forall_forall in Hall.
      apply list_elem_of_In in Hin.
      destruct (Hall _ Hin) as (_ & Hnone & _). cbn [fst] in Hnone. congruence. }
    intros e He1 He2.
    assert (e <> c) by (intros ->; rewrite Hc in He2; by destruct He2).
    rewrite Hframe; [by apply Hold|exact He1|].
    by rewrite Hold.
Qed.

Lemma prior_count_rollups (metaType dbCall : Value) (durations : list float)
    (pf : FieldMap) :
  (- 2 ^ 63 <= prior_count pf (totalMetaCountKey metaType))%Z ->
  (prior_count pf (totalMetaCountKey metaType) + Z.of_nat (length durations) < 2 ^ 63)%Z ->
  prior_count (rollups metaType dbCall durations pf) (totalMetaCountKey metaType)
  = (prior_count pf (totalMetaCountKey metaType) + Z.of_nat (length durations))%Z.
Proof.
  unfold rollups. revert pf.
  induction durations as [|d rest IH]; intros pf Hlo Hhi.
  - cbn. lia.
  - cbn [fold_left length] in *.
    assert (Hstep : prior_count (rollup_fields metaType dbCall d pf)
                      (totalMetaCountKey metaType)
                    = (prior_count pf (totalMetaCountKey metaType) + 1)%Z).
    { rewrite prior_count_rollup_meta. apply int_add_1_in_range; lia. }
    rewrite IH; rewrite Hstep; lia.
Qed.

Lemma prior_duration_rollups (metaType dbCall : Value) (durations : list float)
    (pf : FieldMap) :
  prior_duration (rollups metaType dbCall durations pf) (totalMetaDurKey metaType)
  = fold_left PrimFloat.add durations (prior_duration pf (totalMetaDurKey metaType)).
Proof.
  unfold rollups. revert pf.
  induction durations as [|d rest IH]; intros pf; [reflexivity|].
  cbn [fold_left]. by rewrite IH, prior_duration_rollup_meta.
Qed.

(** X12: any number of children of one caller, finished one after the
    other under one parent.  The send log gains exactly one entry per child,
    in the children's order; each entry is a child's own event (new in the
    store, not the parent, and no two entries are the same event) with that
    child's [duration_ms] and error, as the event still stands at the end.
    The parent's count for the type goes up by the number of children as
    long as the sum stays in the range of [int], and its duration is the
    former duration with the children's durations added from left to right
    in [float64]. *)
Theorem sequential_children_roll_up (ctx : Context) (bld : Builder)
    (callName : string)
    (children : list (string * option (list Value) * float * option string))
    (w : World) (p : EventPtr) (pf : FieldMap) :
  ContextEvent ctx = Some p ->
  events w !! p = Some pf ->
  (- 2 ^ 63 <= prior_count pf
       (totalMetaCountKey (map_index (builderFields bld) "meta.type")))%Z ->
  (prior_count pf (totalMetaCountKey (map_index (builderFields bld) "meta.type"))
   + Z.of_nat (length children) < 2 ^ 63)%Z ->
  exists w' pf' sent,
    run (child_spans ctx bld callName children) w = Returns tt w' /\
    events w' !! p = Some pf' /\
    sendLog w' = sendLog w ++ sent /\
    Forall2 sent_for sent children /\
    Forall (fun entry => fst entry <> p /\
                         events w !! fst entry = None /\
                         events w' !! fst entry = Some (snd entry)) sent /\
    NoDup (List.map fst sent) /\
    prior_count pf' (totalMetaCountKey (map_index (builderFields bld) "meta.type"))
      = (prior_count pf
           (totalMetaCountKey (map_index (builderFields bld) "meta.type"))
         + Z.of_nat (length children))%Z /\
    prior_duration pf' (totalMetaDurKey (map_index (builderFields bld) "meta.type"))
      = fold_left PrimFloat.add (durations_of children)
          (prior_duration pf
             (totalMetaDurKey (map_index (builderFields bld) "meta.type"))).
Proof.
  intros Hctx Hp Hlo Hhi.
  destruct (run_child_spans ctx bld callName children w p pf Hctx Hp)
    as (w' & sent & Hrun & Hp' & Hlog & Hfor & Hall & Hnd & _).
  assert (Hlen : length (durations_of children) = length children)
    by (unfold durations_of; apply length_map).
  eexists w', _, sent. split; [exact Hrun|]. split; [exact Hp'|].
  split; [exact Hlog|]. split; [exact Hfor|]. split; [exact Hall|].
  split; [exact Hnd|]. split.
  - rewrite prior_count_rollups by (rewrite ?Hlen; assumption). by rewrite Hlen.
  - apply prior_duration_rollups.
Qed.

(** The rollup keys do not keep the type and the call apart: the per-call
    keys of type [m] and call [c] are the per-type keys of a type named
    [m_c]. *)
Lemma CallKeys_are_MetaKeys (m c : string) :
  totalCallCountKey (VString m) (VString c)
    = totalMetaCountKey (VString (m +:+ "_" +:+ c)) /\
  totalCallDurKey (VString m) (VString c)
    = totalMetaDurKey (VString (m +:+ "_" +:+ c)).
Proof.
  unfold totalCallCountKey, totalCallDurKey, totalMetaCountKey, totalMetaDurKey.
  cbn [fmt_verb_s]. by rewrite !append_assoc.
Qed.

(** X13: rollup keys collide across types.  Finishing a child whose
    [meta.type] is the string [m_c] raises the parent's counters for call
    [c] of type [m], the very keys a child of type [m] and call [c]
    raises. *)
Theorem rollup_keys_collide (ctx : Context) (p ev : EventPtr) (dur : float)
    (w : World) (pf ef : FieldMap) (m c : string) :
  ContextEvent ctx = Some p ->
  events w !! p = Some pf ->
  events w !! ev = Some ef ->
  ef !! "meta.type" = Some (VString (m +:+ "_" +:+ c)) ->
  exists w' pf',
    run (rollup ctx ev dur) w = Returns tt w' /\
    events w' !! p = Some pf' /\
    pf' !! totalCallCountKey (VString m) (VString c) =
      Some (VInt (int_add
        (prior_count pf (totalCallCountKey (VString m) (VString c))) 1)) /\
    pf' !! totalCallDurKey (VString m) (VString c) =
      Some (VFloat64 (PrimFloat.add
        (prior_duration pf (totalCallDurKey (VString m) (VString c))) dur)).
Proof.
  intros Hctx Hp Hev Hmt.
  destruct (CallKeys_are_MetaKeys m c) as [-> ->].
  eexists _, _. split; [by eapply run_rollup|].
  split; [apply events_upd|].
  unfold map_index at 1 3. rewrite Hmt. cbn [default from_option id].
  split; [apply rollup_fields_MetaCount|apply rollup_fields_MetaDur].
Qed.

(** X14: a child without a [meta.type] field is still rolled up.  The
    absent field reads as nil, which [%s] renders as a bad-verb notice, so
    the parent's counter lands under [totals.%!s(<nil>)_count]. *)
Theorem rollup_without_meta_type (ctx : Context) (p ev : EventPtr) (dur : float)
    (w : World) (pf ef : FieldMap) :
  ContextEvent ctx = Some p ->
  events w !! p = Some pf ->
  events w !! ev = Some ef ->
  ef !! "meta.type" = None ->
  exists w' pf',
    run (rollup ctx ev dur) w = Returns tt w' /\
    events w' !! p = Some pf' /\
    pf' !! "totals.%!s(<nil>)_count" =
      Some (VInt (int_add (prior_count pf "totals.%!s(<nil>)_count") 1)) /\
    pf' !! "totals.%!s(<nil>)_duration_ms" =
      Some (VFloat64 (PrimFloat.add
        (prior_duration pf "totals.%!s(<nil>)_duration_ms") dur)).
Proof.
  intros Hctx Hp Hev Hmt.
  eexists _, _. split; [by eapply run_rollup|].
  split; [apply events_upd|].
  unfold map_index at 1 3. rewrite Hmt. cbn [default from_option id].
  change "totals.%!s(<nil>)_count" with (totalMetaCountKey VNil).
  change "totals.%!s(<nil>)_duration_ms" with (totalMetaDurKey VNil).
  split; [apply rollup_fields_MetaCount|apply rollup_fields_MetaDur].
Qed.

(** ** From the root span to a child *)

(** X15: the trace identity passes from the root span to a child built in
    the context that carries it.  The child's [trace.trace_id] is the
    root's, its [trace.parent_id] is the root's [trace.span_id], both are
    non-empty strings, a non-empty [Request-Id] is the trace ID of both, and
    the child's own [trace.span_id] is rendered from the draw after the
    root's. *)
Theorem trace_identity_root_to_child (req : http_Request) (ev : EventPtr)
    (bld : Builder) (callName query : string) (args : option (list Value))
    (w : World) (fs : FieldMap) :
  events w !! ev = Some fs ->
  exists c fn w' root cf traceID spanID,
    run (root_then_child req ev bld callName query args) w = Returns (c, fn) w' /\
    c <> ev /\
    events w' !! ev = Some root /\
    events w' !! c = Some cf /\
    root !! "trace.trace_id" = Some (VString traceID) /\
    cf !! "trace.trace_id" = Some (VString traceID) /\
    root !! "trace.span_id" = Some (VString spanID) /\
    cf !! "trace.parent_id" = Some (VString spanID) /\
    traceID <> "" /\ spanID <> "" /\
    (Header_Get (Header req) "Request-Id" <> "" ->
     traceID = Header_Get (Header req) "Request-Id") /\
    spanID = UUID_String (uuid_source (root_draws req + uuidsDrawn w - 1)) /\
    cf !! "trace.span_id" =
      Some (VString (UUID_String (uuid_source (root_draws req + uuidsDrawn w)))).
Proof.
  intros Hev. unfold root_then_child.
  rewrite run_bind, (run_AddRequestProps _ _ _ _ Hev).
  set (root := AddRequestProps_fields req (uuidsDrawn w) fs).
  set (w1 := mkWorld (<[ev := root]> (events w)) (root_draws req + uuidsDrawn w)
                     (sendLog w)).
  assert (Hroot : events w1 !! ev = Some root) by apply lookup_insert_eq.
  pose proof (fresh_event_unallocated w1) as Hc.
  assert (Hne : fresh (dom (events w1)) <> ev) by (intros E; congruence).
  rewrite run_BuildDBEvent
    by (intros q Hq; cbn in Hq; injection Hq as <-; eauto).
  unfold parent_fields. cbn [ContextEvent currentEvent]. rewrite Hroot.
  eexists _, _, _, root, _, (root_traceID req (uuidsDrawn w)),
          (root_spanID req (uuidsDrawn w)).
  split; [reflexivity|]. split; [exact Hne|].
  split. { cbn [events]. rewrite lookup_insert_ne by exact Hne. exact Hroot. }
  split; [apply lookup_insert_eq|].
  assert (Htid : root !! "trace.trace_id" = Some (VString (root_traceID req (uuidsDrawn w))))
    by apply AddRequestProps_fields_trace_id.
  assert (Hsid : root !! "trace.span_id" = Some (VString (root_spanID req (uuidsDrawn w))))
    by apply AddRequestProps_fields_span_id.
  split; [exact Htid|].
  split. { rewrite BuildDBEvent_fields_lookup by discriminate.
           cbn [addTraceID_fields]. rewrite Htid, Hsid. cbn [copy_field].
           rewrite !lookup_insert_ne by discriminate. apply lookup_insert_eq. }
  split; [exact Hsid|].
  split. { rewrite BuildDBEvent_fields_lookup by discriminate.
           cbn [addTraceID_fields]. rewrite Htid, Hsid. cbn [copy_field].
           rewrite !lookup_insert_ne by discriminate. apply lookup_insert_eq. }
  unfold root_traceID, root_spanID, root_draws.
  split. { destruct (String.eqb_spec (traceID_candidate req) ""); [|done].
           apply UUID_String_nonempty. }
  split. { destruct (String.eqb (traceID_candidate req) ""); apply UUID_String_nonempty. }
  split. { intros Hrid. rewrite (traceID_candidate_request_id req Hrid).
           by destruct (String.eqb_spec (Header_Get (Header req) "Request-Id") ""). }
  split. { destruct (String.eqb (traceID_candidate req) ""); do 2 f_equal; lia. }
  rewrite BuildDBEvent_fields_lookup by discriminate.
  cbn [addTraceID_fields uuidsDrawn w1]. apply lookup_insert_eq.
Qed.

End Internal.

(* ================================================================== *)
(** * The properties at concrete inputs *)

(** C1: for [X-Amzn-Trace-Id: Root=1-111;CalledFrom=app] and no
    [Request-Id], [parseTraceHeader] returns the key ["Root"], not the value
    ["1-111"], and the root span's [trace.trace_id] is ["Root"]; the value
    is recorded under [request.header.aws_trace_id.Root] only. *)
Theorem aws_root_key_becomes_trace_id (uuid_source : nat -> UUID) :
  (exists w1,
     run uuid_source (parseTraceHeader request_aws 0) world_one_event =
     Returns "Root" w1) /\
  (exists w' fs',
     run uuid_source (AddRequestProps request_aws 0) world_one_event =
       Returns tt w' /\
     events w' !! 0 = Some fs' /\
     fs' !! "trace.trace_id" = Some (VString "Root") /\
     fs' !! "trace.trace_id" <> Some (VString "1-111") /\
     fs' !! "request.header.aws_trace_id.Root" = Some (VString "1-111")).
Proof.
  split.
  - eexists. reflexivity.
  - eexists _, _. split; [by apply run_AddRequestProps|].
    split; [apply lookup_insert_eq|].
    rewrite AddRequestProps_fields_trace_id.
    split; [reflexivity|]. split; [discriminate|].
    unfold AddRequestProps_fields. by rewrite !lookup_insert_ne by discriminate.
Qed.

(** C9: two children of one parent, each of type ["db"] and call [query].
    When both closures read the parent's counters before either writes, both
    goroutines end, and the parent's [totals.db_count] is 1 and its
    [totals.db_duration_ms] is 20: the first closure's update is lost.  When
    the closures run one after the other the counters are 2 and 30. *)
Theorem concurrent_rollup_loses_update :
  all_finished (race example_FormatFloat example_uuid_source overlapping_schedule) = true /\
  field_of (race example_FormatFloat example_uuid_source overlapping_schedule)
           0 "totals.db_count" = Some (VInt 1) /\
  field_of (race example_FormatFloat example_uuid_source overlapping_schedule)
           0 "totals.db_duration_ms" = Some (VFloat64 20%float) /\
  field_of (race example_FormatFloat example_uuid_source overlapping_schedule)
           0 "totals.db_query_count" = Some (VInt 1) /\
  all_finished (race example_FormatFloat example_uuid_source sequential_schedule) = true /\
  field_of (race example_FormatFloat example_uuid_source sequential_schedule)
           0 "totals.db_count" = Some (VInt 2) /\
  field_of (race example_FormatFloat example_uuid_source sequential_schedule)
           0 "totals.db_duration_ms" = Some (VFloat64 30%float).
Proof. repeat split; vm_compute; reflexivity. Qed.

(** C2 at the root span of the examples, with three callers named
    [main.query]. *)
Lemma three_query_children_roll_up_witness :
  exists c3 w' pf',
    run example_uuid_source
        (child_span example_FormatFloat ctx_root builder_db "main.query" "SELECT 1" None 10%float None;;
         child_span example_FormatFloat ctx_root builder_db "main.query" "SELECT 2" None 20%float None;;
         child_span example_FormatFloat ctx_root builder_db "main.query" "SELECT 3" None 30%float None)
        world_with_root
      = Returns c3 w' /\
    events w' !! 0 = Some pf' /\
    pf' !! "totals.db_count" = Some (VInt 3) /\
    pf' !! "totals.db_duration_ms" = Some (VFloat64 60%float) /\
    pf' !! "totals.db_query_count" = Some (VInt 3) /\
    pf' !! "totals.db_query_duration_ms" = Some (VFloat64 60%float).
Proof.
  apply (three_query_children_roll_up example_FormatFloat example_uuid_source
           ctx_root builder_db "main.query" "main.query" "main.query"
           "SELECT 1" "SELECT 2" "SELECT 3" None None None None None None
           world_with_root 0 root_event_fields); reflexivity.
Defined.

(** C3 at the root span of the examples. *)
Lemma child_links_to_parent_witness :
  exists c fn w' cf,
    run example_uuid_source
        (BuildDBEvent example_FormatFloat ctx_root builder_db "main.query" "SELECT 1" None)
        world_with_root = Returns (c, fn) w' /\
    events world_with_root !! c = None /\
    events w' !! c = Some cf /\
    cf !! "trace.trace_id" = Some (VString "abc-123") /\
    cf !! "trace.parent_id" = Some (VString "span-0") /\
    cf !! "trace.span_id" =
      Some (VString (UUID_String (example_uuid_source (uuidsDrawn world_with_root)))) /\
    has_span_id cf /\
    uuidsDrawn w' = S (uuidsDrawn world_with_root) /\
    events w' !! 0 = Some root_event_fields.
Proof.
  apply (child_links_to_parent example_FormatFloat example_uuid_source
           ctx_root builder_db "main.query" "SELECT 1" None world_with_root
           0 root_event_fields (VString "abc-123") (VString "span-0"));
    reflexivity.
Defined.

(** C4 as the code has it, at a request without trace headers and at
    children built with and without the root span in context. *)
Lemma span_identity_by_route_witness :
  (exists w' root,
     run example_uuid_source (AddRequestProps request_plain 0) world_one_event
       = Returns tt w' /\
     events w' !! 0 = Some root /\
     has_span_id root /\
     root !! "trace.parent_id" = (∅ : FieldMap) !! "trace.parent_id") /\
  (exists c fn w' cf,
     run example_uuid_source
         (BuildDBEvent example_FormatFloat ctx_root builder_db "main.query" "SELECT 1" None)
         world_with_root = Returns (c, fn) w' /\
     events w' !! c = Some cf /\
     has_span_id cf /\
     (forall sid, root_event_fields !! "trace.span_id" = Some sid ->
                  cf !! "trace.parent_id" = Some sid)) /\
  (exists c fn w' cf,
     run example_uuid_source
         (BuildDBEvent example_FormatFloat ctx_none builder_db "main.query" "SELECT 1" None)
         world_with_root = Returns (c, fn) w' /\
     events w' !! c = Some cf /\
     cf !! "trace.span_id" = builderFields builder_db !! "trace.span_id" /\
     cf !! "trace.parent_id" = builderFields builder_db !! "trace.parent_id" /\
     cf !! "trace.trace_id" = builderFields builder_db !! "trace.trace_id").
Proof.
  apply (span_identity_by_route example_FormatFloat example_uuid_source
           request_plain 0 world_one_event ∅ ctx_root ctx_none 0
           root_event_fields world_with_root world_with_root builder_db
           "main.query" "SELECT 1" None); reflexivity.
Defined.

(** C4 as stated fails for a child span built with no event in
    context: the event [BuildDBEvent] returns has no [trace.span_id], and it
    has no [trace.parent_id] although it is not the root of a request. *)
Lemma child_without_parent_has_no_span_id :
  exists c fn w' cf,
    run example_uuid_source
        (BuildDBEvent example_FormatFloat ctx_none builder_db "main.query" "SELECT 1" None)
        world_with_root = Returns (c, fn) w' /\
    events w' !! c = Some cf /\
    ~ has_span_id cf /\
    cf !! "trace.span_id" = None /\
    cf !! "trace.parent_id" = None.
Proof.
  eexists _, _, _, _.
  split; [apply run_BuildDBEvent; intros q Hq; discriminate Hq|].
  split; [apply lookup_insert_eq|].
  assert (H : BuildDBEvent_fields (parent_fields ctx_none world_with_root)
                (example_uuid_source (uuidsDrawn world_with_root)) builder_db
                "main.query" "SELECT 1" None !! "trace.span_id" = None)
    by reflexivity.
  split; [|split; [exact H|reflexivity]].
  intros (s & Hs & _). rewrite H in Hs. discriminate Hs.
Qed.

(** C5 at a child that finishes after 12.5 ms with an error. *)
Lemma finish_without_parent_witness :
  (forall ev dur w0,
     run example_uuid_source (rollup example_FormatFloat ctx_none ev dur) w0
       = Returns tt w0) /\
  exists c fn w1 w2 cf,
    run example_uuid_source
        (BuildDBEvent example_FormatFloat ctx_none builder_db "main.query" "SELECT 1" None)
        world_with_root = Returns (c, fn) w1 /\
    run example_uuid_source (fn 12.5%float (Some "connection refused")) w1
      = Returns tt w2 /\
    events world_with_root !! c = None /\
    (forall e, e <> c -> events w2 !! e = events world_with_root !! e) /\
    events w2 !! c = Some cf /\
    cf !! "duration_ms" = Some (VFloat64 12.5%float) /\
    (forall e, Some "connection refused" = Some e -> cf !! "error" = Some (VError e)) /\
    sendLog w2 = sendLog world_with_root ++ [(c, cf)] /\
    uuidsDrawn w2 = uuidsDrawn world_with_root.
Proof.
  apply (finish_without_parent example_FormatFloat example_uuid_source
           ctx_none builder_db "main.query" "SELECT 1" None 12.5%float
           (Some "connection refused") world_with_root); reflexivity.
Defined.

(** C6 at a request that carries both headers. *)
Lemma request_id_becomes_trace_id_witness :
  (exists w1,
     run example_uuid_source (parseTraceHeader request_with_id 0) world_one_event =
     Returns (Header_Get (Header request_with_id) "Request-Id") w1) /\
  (exists w' fs',
     run example_uuid_source (AddRequestProps request_with_id 0) world_one_event
       = Returns tt w' /\
     events w' !! 0 = Some fs' /\
     fs' !! "trace.trace_id" =
       Some (VString (Header_Get (Header request_with_id) "Request-Id")) /\
     fs' !! "request.header.request_id" =
       Some (VString (Header_Get (Header request_with_id) "Request-Id"))).
Proof.
  apply (request_id_becomes_trace_id example_uuid_source request_with_id 0
           world_one_event ∅); [reflexivity|discriminate].
Defined.

(** The request of the witness carries [Request-Id: abc-123]. *)
Lemma request_with_id_header :
  Header_Get (Header request_with_id) "Request-Id" = "abc-123".
Proof. reflexivity. Qed.

(** C7 as the code has it, at two calls for a request without trace
    headers, the second after the two draws of the first: with the example
    generator the IDs of the two calls differ. *)
Lemma fabricated_ids_nonempty_and_drawn_anew_witness :
  exists w1' w2' root1 root2 t1 s1 t2 s2,
    run example_uuid_source (AddRequestProps request_plain 0) world_one_event
      = Returns tt w1' /\
    run example_uuid_source (AddRequestProps request_plain 0) world_later
      = Returns tt w2' /\
    events w1' !! 0 = Some root1 /\
    events w2' !! 0 = Some root2 /\
    root1 !! "trace.trace_id" = Some (VString t1) /\
    root1 !! "trace.span_id" = Some (VString s1) /\
    root2 !! "trace.trace_id" = Some (VString t2) /\
    root2 !! "trace.span_id" = Some (VString s2) /\
    uuidsDrawn w1' = uuidsDrawn world_later /\
    t1 <> "" /\ s1 <> "" /\ t2 <> "" /\ s2 <> "" /\
    t1 <> t2 /\ s1 <> s2.
Proof.
  destruct (fabricated_ids_nonempty_and_drawn_anew example_uuid_source
              request_plain request_plain 0 0 world_one_event world_later ∅ ∅
              eq_refl eq_refl eq_refl eq_refl eq_refl eq_refl)
    as (w1' & w2' & root1 & root2 & t1 & s1 & t2 & s2 & R1 & R2 & E1 & E2
        & T1 & S1 & T2 & S2 & _ & _ & _ & _ & D1 & _ & N1 & N2 & N3 & N4
        & [_ Ht] & [_ Hs]).
  exists w1', w2', root1, root2, t1, s1, t2, s2.
  repeat split; try assumption.
  - apply Ht. discriminate.
  - apply Hs. discriminate.
Defined.

(** C7 as stated fails when the generator repeats itself, as it does when
    the random source fails and the discarded error leaves [uuid.Nil]: two
    calls for requests without trace headers, one after the other on two
    events, then give the same trace ID and the same span ID. *)
Lemma failing_generator_repeats_ids :
  exists w1' w2' root1 root2,
    run failing_uuid_source (AddRequestProps request_plain 0) world_two_events
      = Returns tt w1' /\
    run failing_uuid_source (AddRequestProps request_plain 1) w1'
      = Returns tt w2' /\
    events w2' !! 0 = Some root1 /\
    events w2' !! 1 = Some root2 /\
    root1 !! "trace.trace_id" = Some (VString "00000000-0000-0000-0000-000000000000") /\
    root2 !! "trace.trace_id" = Some (VString "00000000-0000-0000-0000-000000000000") /\
    root1 !! "trace.span_id" = Some (VString "00000000-0000-0000-0000-000000000000") /\
    root2 !! "trace.span_id" = Some (VString "00000000-0000-0000-0000-000000000000").
Proof.
  eexists _, _, _, _.
  split; [by apply (run_AddRequestProps failing_uuid_source request_plain 0
                      world_two_events ∅)|].
  split; [by eapply run_AddRequestProps|].
  split; [cbn [events]; rewrite lookup_insert_ne by discriminate;
          apply lookup_insert_eq|].
  split; [apply lookup_insert_eq|].
  repeat split;
    first [apply AddRequestProps_fields_trace_id|apply AddRequestProps_fields_span_id].
Qed.

(** C8 at the header [Self=1-222;garbage;CalledFrom=app]. *)
Lemma malformed_segment_skipped_witness :
  (forall traceID,
     parseTraceHeader_range 0 ["garbage"] traceID = mret traceID) /\
  (forall traceID,
     parseTraceHeader_range 0
       (strings_Split (Header_Get (Header request_aws_malformed) "X-Amzn-Trace-Id")
                      ";"%char) traceID
     = parseTraceHeader_range 0 (["Self=1-222"] ++ ["CalledFrom=app"]) traceID) /\
  (exists w' fs',
     run example_uuid_source (AddRequestProps request_aws_malformed 0) world_one_event
       = Returns tt w' /\
     events w' !! 0 = Some fs' /\
     has_span_id fs').
Proof.
  apply (malformed_segment_skipped example_uuid_source request_aws_malformed 0
           world_one_event ∅ ["Self=1-222"] ["CalledFrom=app"] "garbage");
    [reflexivity|reflexivity|discriminate].
Defined.

(** C10 at the root span and one child of the examples. *)
Lemma rollup_writes_four_parent_keys_witness :
  exists w' pf',
    run example_uuid_source (rollup example_FormatFloat ctx_root 1 12.5%float)
        world_with_child = Returns tt w' /\
    events w' !! 0 = Some pf' /\
    pf' !! "totals.db_count" = Some (VInt 1) /\
    pf' !! "totals.db_duration_ms" = Some (VFloat64 12.5%float) /\
    pf' !! "totals.db_query_count" = Some (VInt 1) /\
    pf' !! "totals.db_query_duration_ms" = Some (VFloat64 12.5%float) /\
    pf' !! "trace.trace_id" = Some (VString "abc-123") /\
    events w' !! 1 = Some child_event_fields.
Proof.
  destruct (rollup_writes_four_parent_keys example_FormatFloat example_uuid_source
              ctx_root 0 1 12.5%float world_with_child
              root_event_fields child_event_fields)
    as (w' & pf' & Hrun & Hp & Hframe & Hchild & _ & _ & _ & H1 & H2 & H3 & H4 & _);
    [reflexivity|reflexivity|reflexivity|discriminate|].
  exists w', pf'.
  split; [exact Hrun|]. split; [exact Hp|].
  split; [exact H1|]. split; [exact H2|]. split; [exact H3|]. split; [exact H4|].
  split; [|exact Hchild].
  rewrite Hframe; [reflexivity|discriminate..].
Defined.

(* ================================================================== *)
(** * The further properties at concrete inputs *)

(** X3 at a request that carries both trace headers. *)
Lemma AddRequestProps_records_request_witness :
  exists w' fs',
    run example_uuid_source (AddRequestProps request_with_id 0) world_one_event
      = Returns tt w' /\
    events w' !! 0 = Some fs' /\
    fs' !! "meta.type" = Some (VString "http request") /\
    fs' !! "request.method" = Some (VString "GET") /\
    fs' !! "request.path" = Some (VString "/users") /\
    fs' !! "request.content_length" = Some (VInt64 0) /\
    fs' !! "request.header.user_agent" = Some (VString "").
Proof.
  destruct (AddRequestProps_records_request example_uuid_source request_with_id 0
              world_one_event ∅ eq_refl)
    as (w' & fs' & Hrun & Hev & H1 & H2 & H3 & _ & _ & H6 & _ & H8).
  exists w', fs'. repeat split; assumption.
Defined.

(** X4 at an event that already carries [app.version]. *)
Lemma AddRequestProps_frame_witness :
  exists w' fs',
    run example_uuid_source (AddRequestProps request_aws 0) world_with_custom
      = Returns tt w' /\
    events w' !! 0 = Some fs' /\
    fs' !! "app.version" = Some (VString "1.2") /\
    fs' !! "request.header.request_id" = None /\
    sendLog w' = [].
Proof.
  destruct (AddRequestProps_frame example_uuid_source request_aws 0
              world_with_custom {["app.version" := VString "1.2"]} eq_refl)
    as (w' & fs' & Hrun & Hev & Hkeep & Hrid & _ & Hlog).
  exists w', fs'.
  split; [exact Hrun|]. split; [exact Hev|].
  split; [|split; [exact (Hrid eq_refl)|exact Hlog]].
  rewrite Hkeep; [reflexivity| |].
  - unfold AddRequestProps_keys. rewrite !not_elem_of_cons.
    repeat split; try discriminate. apply not_elem_of_nil.
  - intros k E. apply (f_equal (String.substring 0 28)) in E.
    vm_compute in E. discriminate E.
Defined.

(** X5 at the AWS header [Root=1-111;CalledFrom=app] without a
    [Request-Id]. *)
Lemma root_trace_id_resolution_witness :
  exists w' fs' spanID,
    run example_uuid_source (AddRequestProps request_aws 0) world_one_event
      = Returns tt w' /\
    events w' !! 0 = Some fs' /\
    fs' !! "trace.trace_id" = Some (VString "Root") /\
    fs' !! "trace.span_id" = Some (VString spanID) /\
    spanID = UUID_String (example_uuid_source 0) /\
    uuidsDrawn w' = 1.
Proof.
  destruct (root_trace_id_resolution example_uuid_source request_aws 0
              world_one_event ∅ eq_refl)
    as (w' & fs' & traceID & spanID & Hrun & Hev & Htid & Hsid & _ & _ & _ & Haws & _).
  destruct (Haws eq_refl eq_refl) as (-> & Hspan & Hdrawn).
  exists w', fs', spanID. repeat split; assumption.
Defined.

(** X6 at the first segment of [Root=1-111;CalledFrom=app]. *)
Lemma aws_segment_recorded_witness :
  exists w' fs',
    run example_uuid_source (AddRequestProps request_aws 0) world_one_event
      = Returns tt w' /\
    events w' !! 0 = Some fs' /\
    fs' !! "request.header.aws_trace_id.Root" = Some (VString "1-111").
Proof.
  apply (aws_segment_recorded example_uuid_source request_aws 0 world_one_event ∅
           [] ["CalledFrom=app"] "Root=1-111"); try reflexivity.
  intros j Hj _. apply list_elem_of_singleton in Hj as ->. discriminate.
Defined.

(** The root span of the examples is in the store of the examples. *)
Lemma ctx_root_in_world_with_root :
  forall p, ContextEvent ctx_root = Some p -> is_Some (events world_with_root !! p).
Proof. intros p [= <-]. eexists. reflexivity. Defined.

(** X7 at the caller [hnysql.DB.query]. *)
Lemma db_call_is_last_chunk_witness :
  exists c fn w' cf,
    run example_uuid_source
        (BuildDBEvent example_FormatFloat ctx_root builder_db "hnysql.DB.query" "SELECT 1" None)
        world_with_root = Returns (c, fn) w' /\
    events w' !! c = Some cf /\
    cf !! "db.call" = Some (VString "query").
Proof.
  destruct (db_call_is_last_chunk example_FormatFloat example_uuid_source
              ctx_root builder_db "hnysql.DB.query" "SELECT 1" None world_with_root
              ctx_root_in_world_with_root)
    as (c & fn & w' & cf & Hrun & Hev & Hcall & _).
  exists c, fn, w', cf. repeat split; assumption.
Defined.

(** X8 at a call with an empty query and no arguments. *)
Lemma BuildDBEvent_frame_witness :
  exists c fn w' cf,
    run example_uuid_source
        (BuildDBEvent example_FormatFloat ctx_root builder_db "hnysql.DB.query" "" None)
        world_with_root = Returns (c, fn) w' /\
    events w' !! c = Some cf /\
    events w' !! 0 = Some root_event_fields /\
    sendLog w' = [] /\
    cf !! "meta.type" = Some (VString "db") /\
    cf !! "db.query" = None /\
    cf !! "db.query_args" = None.
Proof.
  destruct (BuildDBEvent_frame example_FormatFloat example_uuid_source
              ctx_root builder_db "hnysql.DB.query" "" None world_with_root
              ctx_root_in_world_with_root)
    as (c & fn & w' & cf & Hrun & Hnew & Hev & Hothers & Hlog & Hkeep & Hq & Ha).
  exists c, fn, w', cf.
  split; [exact Hrun|]. split; [exact Hev|].
  split. { rewrite Hothers; [reflexivity|]. intros <-. discriminate Hnew. }
  split; [exact Hlog|].
  split; [|split; [exact Hq|exact Ha]].
  rewrite Hkeep; [reflexivity|].
  rewrite !not_elem_of_cons. repeat split; try discriminate. apply not_elem_of_nil.
Defined.

(** X9 at a parent event without any field: the child gets no trace ID and
    no parent ID, and still a span ID. *)
Lemma child_identity_from_parent_witness :
  exists c fn w' cf,
    run example_uuid_source
        (BuildDBEvent example_FormatFloat ctx_root builder_db "hnysql.DB.query" "SELECT 1" None)
        world_one_event = Returns (c, fn) w' /\
    events w' !! c = Some cf /\
    cf !! "trace.trace_id" = None /\
    cf !! "trace.parent_id" = None /\
    cf !! "trace.span_id" = Some (VString (UUID_String (example_uuid_source 0))).
Proof.
  destruct (child_identity_from_parent example_FormatFloat example_uuid_source
              ctx_root builder_db "hnysql.DB.query" "SELECT 1" None world_one_event
              0 ∅ eq_refl eq_refl)
    as (c & fn & w' & cf & Hrun & Hev & Htid & Hpid & Hsid & _).
  exists c, fn, w', cf. repeat split; assumption.
Defined.

(** X10 at a child that finishes after 12.5 ms without an error. *)
Lemma finish_with_parent_witness :
  exists c w' cf pf',
    run example_uuid_source
        (child_span example_FormatFloat ctx_root builder_db "hnysql.DB.query"
                    "SELECT 1" None 12.5%float None)
        world_with_root = Returns c w' /\
    c <> 0 /\
    sendLog w' = [(c, cf)] /\
    cf !! "duration_ms" = Some (VFloat64 12.5%float) /\
    cf !! "error" = None /\
    events w' !! 0 = Some pf' /\
    pf' !! "trace.trace_id" = Some (VString "abc-123").
Proof.
  destruct (finish_with_parent example_FormatFloat example_uuid_source
              ctx_root builder_db "hnysql.DB.query" "SELECT 1" None 12.5%float None
              world_with_root 0 root_event_fields eq_refl eq_refl)
    as (c & w' & cf & pf' & Hrun & Hne & _ & Hlog & Hdur & _ & Herr & Hp & Hkeep & _).
  exists c, w', cf, pf'.
  split; [exact Hrun|]. split; [exact Hne|]. split; [exact Hlog|].
  split; [exact Hdur|]. split; [exact (Herr eq_refl)|]. split; [exact Hp|].
  rewrite Hkeep; [reflexivity|]. intros rest E. discriminate E.
Defined.

(** X11 at a closure called after 10 ms and again after 20 ms. *)
Lemma finish_twice_counts_twice_witness :
  exists c w' cf1 cf2 pf',
    run example_uuid_source
        (child_span_finished_twice example_FormatFloat ctx_root builder_db
           "hnysql.DB.query" "SELECT 1" None 10%float 20%float None)
        world_with_root = Returns c w' /\
    sendLog w' = [(c, cf1); (c, cf2)] /\
    events w' !! 0 = Some pf' /\
    pf' !! "totals.db_count" = Some (VInt 2) /\
    pf' !! "totals.db_duration_ms" = Some (VFloat64 30%float).
Proof.
  destruct (finish_twice_counts_twice example_FormatFloat example_uuid_source
              ctx_root builder_db "hnysql.DB.query" "SELECT 1" None
              10%float 20%float None world_with_root 0 root_event_fields
              eq_refl eq_refl)
    as (c & w' & cf1 & cf2 & pf' & Hrun & Hlog & _ & _ & _ & Hp & Hcount & Hdur).
  exists c, w', cf1, cf2, pf'. repeat split; assumption.
Defined.

(** X12 at two children of 10 ms and 20 ms, the second with an error. *)
Lemma sequential_children_roll_up_witness :
  exists w' pf' c1 cf1 c2 cf2,
    run example_uuid_source
        (child_spans example_FormatFloat ctx_root builder_db "hnysql.DB.query"
           [("SELECT 1", None, 10%float, None);
            ("SELECT 2", None, 20%float, Some "timeout")])
        world_with_root = Returns tt w' /\
    events w' !! 0 = Some pf' /\
    sendLog w' = [(c1, cf1); (c2, cf2)] /\
    c1 <> 0 /\ c2 <> 0 /\ c1 <> c2 /\
    cf1 !! "duration_ms" = Some (VFloat64 10%float) /\
    cf2 !! "duration_ms" = Some (VFloat64 20%float) /\
    cf2 !! "error" = Some (VError "timeout") /\
    prior_count pf' "totals.db_count" = 2%Z /\
    prior_duration pf' "totals.db_duration_ms" = 30%float.
Proof.
  destruct (sequential_children_roll_up example_FormatFloat example_uuid_source
              ctx_root builder_db "hnysql.DB.query"
              [("SELECT 1", None, 10%float, None);
               ("SELECT 2", None, 20%float, Some "timeout")]
              world_with_root 0 root_event_fields eq_refl eq_refl)
    as (w' & pf' & sent & Hrun & Hp & Hlog & Hfor & Hall & Hnd & Hcount & Hdur);
    [vm_compute; discriminate|vm_compute; reflexivity|].
  inversion Hfor as [|[c1 cf1] ch1 sent1 chs1 [D1 _] Hfor1]; subst.
  inversion Hfor1 as [|[c2 cf2] ch2 sent2 chs2 [D2 E2] Hfor2]; subst.
  inversion Hfor2; subst.
  inversion Hall as [|? ? (P1 & _) Hall1]; subst.
  inversion Hall1 as [|? ? (P2 & _) _]; subst.
  cbn [List.map fst] in Hnd. apply NoDup_cons in Hnd as [Hnot _].
  exists w', pf', c1, cf1, c2, cf2.
  split; [exact Hrun|]. split; [exact Hp|]. split; [exact Hlog|].
  split; [exact P1|]. split; [exact P2|].
  split. { intros ->. apply Hnot. by left. }
  split; [exact D1|]. split; [exact D2|]. split; [by apply E2|].
  split; [exact Hcount|exact Hdur].
Defined.

(** X13 at a child of type [db_query]. *)
Lemma rollup_keys_collide_witness :
  exists w' pf',
    run example_uuid_source (rollup example_FormatFloat ctx_root 1 12.5%float)
        world_with_db_query_child = Returns tt w' /\
    events w' !! 0 = Some pf' /\
    pf' !! "totals.db_query_count" = Some (VInt 1) /\
    pf' !! "totals.db_query_duration_ms" = Some (VFloat64 12.5%float).
Proof.
  apply (rollup_keys_collide example_FormatFloat example_uuid_source
           ctx_root 0 1 12.5%float world_with_db_query_child
           root_event_fields {["meta.type" := VString "db_query"]} "db" "query");
    reflexivity.
Defined.

(** X14 at a child that has a [db.call] and no [meta.type]. *)
Lemma rollup_without_meta_type_witness :
  exists w' pf',
    run example_uuid_source (rollup example_FormatFloat ctx_root 1 12.5%float)
        world_with_untyped_child = Returns tt w' /\
    events w' !! 0 = Some pf' /\
    pf' !! "totals.%!s(<nil>)_count" = Some (VInt 1) /\
    pf' !! "totals.%!s(<nil>)_duration_ms" = Some (VFloat64 12.5%float).
Proof.
  apply (rollup_without_meta_type example_FormatFloat example_uuid_source
           ctx_root 0 1 12.5%float world_with_untyped_child
           root_event_fields {["db.call" := VString "query"]});
    reflexivity.
Defined.

(** X15 at a request with [Request-Id: abc-123]. *)
Lemma trace_identity_root_to_child_witness :
  exists c fn w' root cf spanID,
    run example_uuid_source
        (root_then_child example_FormatFloat request_with_id 0 builder_db
           "hnysql.DB.query" "SELECT 1" None)
        world_one_event = Returns (c, fn) w' /\
    events w' !! 0 = Some root /\
    events w' !! c = Some cf /\
    root !! "trace.trace_id" = Some (VString "abc-123") /\
    cf !! "trace.trace_id" = Some (VString "abc-123") /\
    root !! "trace.span_id" = Some (VString spanID) /\
    cf !! "trace.parent_id" = Some (VString spanID).
Proof.
  destruct (trace_identity_root_to_child example_FormatFloat example_uuid_source
              request_with_id 0 builder_db "hnysql.DB.query" "SELECT 1" None
              world_one_event ∅ eq_refl)
    as (c & fn & w' & root & cf & traceID & spanID & Hrun & _ & Hroot & Hev
        & Ht1 & Ht2 & Hs1 & Hs2 & _ & _ & Hrid & _).
  assert (E : traceID = "abc-123") by (apply Hrid; discriminate).
  rewrite E in Ht1, Ht2.
  exists c, fn, w', root, cf, spanID. repeat split; assumption.
Defined.
